(** * Dice roller server: a shallow embedding and its verification

    The development follows [dice-roller/dice_roller_server.py].  The
    first part models the pieces of the Python runtime the program calls
    ([str] methods, [int()], [str()], list sorting, float formatting,
    exceptions and the [random] module); the second part transcribes the
    utility functions and the eight tool handlers; the third part names
    what the properties speak of; the fourth part states and proves the
    properties of the handlers; the fifth part adds what the handlers do
    at their edges and with the generator. *)

From Stdlib Require Import ZArith List String Ascii Bool Lia.
From Stdlib Require Import Permutation Sorted.
From Stdlib Require Import Floats.PrimFloat Floats.FloatOps Floats.SpecFloat.
From Stdlib Require Import Numbers.Cyclic.Int63.Uint63.
Import ListNotations.

Open Scope Z_scope.

(* ================================================================== *)
(** * Part I: the Python runtime the program relies on *)
(* ================================================================== *)

(** ** Text

    A Python [str] is a sequence of Unicode code points.  Literals are
    written as UTF-8 Rocq strings and decoded by [u]. *)

Abbreviation char := Z (only parsing).
Abbreviation str := (list Z) (only parsing).

Fixpoint utf8_decode (pending : nat) (acc : Z) (s : string) : str :=
  match s with
  | EmptyString => []
  | String a rest =>
      let b := Z.of_N (N_of_ascii a) in
      match pending with
      | O =>
          if b <? 128 then b :: utf8_decode 0 0 rest
          else if b <? 224 then utf8_decode 1 (b - 192) rest
          else if b <? 240 then utf8_decode 2 (b - 224) rest
          else utf8_decode 3 (b - 240) rest
      | S O => (acc * 64 + (b - 128)) :: utf8_decode 0 0 rest
      | S k => utf8_decode k (acc * 64 + (b - 128)) rest
      end
  end.

Definition u (s : string) : str := utf8_decode 0 0 s.

Definition nl : str := [10].

Definition str_eqb (a b : str) : bool :=
  if list_eq_dec Z.eq_dec a b then true else false.

(** Truthiness of a string: [if s] / [if not s]. *)
Definition truthy (s : str) : bool :=
  match s with [] => false | _ :: _ => true end.

(** [s.startswith(p)]. *)
Fixpoint startswith (p s : str) : bool :=
  match p, s with
  | [], _ => true
  | _ :: _, [] => false
  | a :: p', b :: s' => (a =? b) && startswith p' s'
  end.

(** The code points [str.isspace] accepts, which are the ones [strip()]
    removes: the ASCII controls 9-13 and 28-31, the blank, and the
    Unicode separators. *)
Definition py_isspace (c : char) : bool :=
  ((9 <=? c) && (c <=? 13)) || ((28 <=? c) && (c <=? 32))
  || (c =? 133) || (c =? 160) || (c =? 5760)
  || ((8192 <=? c) && (c <=? 8202))
  || (c =? 8232) || (c =? 8233) || (c =? 8239) || (c =? 8287)
  || (c =? 12288).

Fixpoint py_lstrip (s : str) : str :=
  match s with
  | c :: rest => if py_isspace c then py_lstrip rest else s
  | [] => []
  end.

Definition py_rstrip (s : str) : str := rev (py_lstrip (rev s)).

(** [s.strip()]. *)
Definition py_strip (s : str) : str := py_rstrip (py_lstrip s).

(** [s.lower()] and [s.upper()] on the ASCII letters.  Code points
    outside ASCII are left alone.  The handlers only compare a lowered
    text with ASCII keywords, split it at [d] and hand the parts to
    [int()]; the only code points outside ASCII whose lower case holds an
    ASCII letter are U+212A (to [k], which no keyword holds) and U+0130
    (to [i] followed by U+0307, which no keyword holds), so the handlers
    answer the same with Unicode's full case mapping. *)
Definition lower_char (c : char) : char :=
  if (65 <=? c) && (c <=? 90) then c + 32 else c.

Definition upper_char (c : char) : char :=
  if (97 <=? c) && (c <=? 122) then c - 32 else c.

Definition py_lower (s : str) : str := map lower_char s.

(** [s.capitalize()]: first character upper-cased, the rest lowered.
    The program capitalizes accepted rarity keywords only. *)
Definition py_capitalize (s : str) : str :=
  match s with
  | [] => []
  | c :: rest => upper_char c :: py_lower rest
  end.

(** [c in s] for a one-character needle. *)
Definition py_contains (c : char) (s : str) : bool :=
  existsb (Z.eqb c) s.

(** [s.split(sep)] for a one-character separator: always at least one
    part, one more part than there are separators. *)
Fixpoint py_split (sep : char) (s : str) : list str :=
  match s with
  | [] => [[]]
  | c :: rest =>
      if c =? sep then [] :: py_split sep rest
      else match py_split sep rest with
           | p :: ps => (c :: p) :: ps
           | [] => [[c]]
           end
  end.

(** [sep.join(parts)]. *)
Fixpoint py_join (sep : str) (parts : list str) : str :=
  match parts with
  | [] => []
  | [p] => p
  | p :: ps => p ++ sep ++ py_join sep ps
  end.

(** [len(l)] as a Python integer. *)
Definition py_len {A} (l : list A) : Z := Z.of_nat (List.length l).

(** [l.count(x)] on a list of strings. *)
Definition py_count (x : str) (l : list str) : Z :=
  Z.of_nat (List.length (filter (str_eqb x) l)).

(** [sum(l)]. *)
Definition py_sum (l : list Z) : Z := fold_left Z.add l 0.

(** [range(n)]. *)
Definition py_range (n : Z) : list Z := map Z.of_nat (seq 0 (Z.to_nat n)).

(** ** [str(n)] on integers *)

Fixpoint digits_of (fuel : nat) (n : Z) (acc : str) : str :=
  match fuel with
  | O => acc
  | S fuel' =>
      let acc' := (48 + n mod 10) :: acc in
      if n <? 10 then acc' else digits_of fuel' (n / 10) acc'
  end.

Definition py_str (n : Z) : str :=
  let a := Z.abs n in
  (if n <? 0 then [45] else []) ++ digits_of (S (Z.to_nat (Z.log2 a))) a [].

(** ** Exceptions

    Every exception the program can meet is a subclass of [Exception];
    the handlers tell [ValueError] from the rest. *)

Inductive exn_class : Type := ValueError | IndexError.

Record exn : Type := mk_exn { exn_cls : exn_class; exn_str : str }.

Inductive result (A : Type) : Type :=
| Ret (a : A)
| Raise (e : exn).
Arguments Ret {A} a.
Arguments Raise {A} e.

Definition bindR {A B} (m : result A) (k : A -> result B) : result B :=
  match m with
  | Ret a => k a
  | Raise e => Raise e
  end.

Notation "x <~ m ;; k" := (bindR m (fun x => k))
  (at level 61, m at next level, right associativity).

Definition is_value_error (e : exn) : bool :=
  match exn_cls e with ValueError => true | _ => false end.

(** [l[i]]. *)
Definition getitem {A} (l : list A) (i : nat) : result A :=
  match nth_error l i with
  | Some x => Ret x
  | None => Raise (mk_exn IndexError (u "list index out of range"))
  end.

(** ** [int(s)]

    CPython first maps the text to ASCII (every Unicode space to a
    blank, every Unicode decimal digit to its ASCII digit, anything else
    outside ASCII to [?]), then reads: C-locale blanks, an optional
    sign, decimal digits with single underscores between them, blanks,
    end of text.  More than [int_max_str_digits] digits are refused.
    Every failure is a [ValueError]. *)

(** First code point of each run of ten decimal digits (category Nd,
    Unicode 14). *)
Definition decimal_zeros : list Z :=
  [48; 1632; 1776; 1984; 2406; 2534; 2662; 2790; 2918; 3046; 3174;
   3302; 3430; 3558; 3664; 3792; 3872; 4160; 4240; 6112; 6160; 6470;
   6608; 6784; 6800; 6992; 7088; 7232; 7248; 42528; 43216; 43264;
   43472; 43504; 43600; 44016; 65296; 66720; 68912; 69734; 69872;
   69942; 70096; 70384; 70736; 70864; 71248; 71360; 71472; 71904;
   72016; 72784; 73040; 73120; 92768; 92864; 93008; 120782; 120792;
   120802; 120812; 120822; 123200; 123632; 125264; 130032].

Definition py_decimal (c : char) : option Z :=
  match find (fun z => (z <=? c) && (c <=? z + 9)) decimal_zeros with
  | Some z => Some (c - z)
  | None => None
  end.

Definition to_ascii_decimal_and_space (c : char) : char :=
  if c <? 127 then c
  else if py_isspace c then 32
  else match py_decimal c with
       | Some d => 48 + d
       | None => 63
       end.

(** C's [isspace] in the C locale. *)
Definition c_isspace (c : char) : bool :=
  ((9 <=? c) && (c <=? 13)) || (c =? 32).

Fixpoint skip_spaces (s : str) : str :=
  match s with
  | c :: rest => if c_isspace c then skip_spaces rest else s
  | [] => []
  end.

Definition is_digit (c : char) : bool := (48 <=? c) && (c <=? 57).

(** The digit loop: the value read so far, the number of digits read,
    and whether the previous character was an underscore.  It stops at
    the first character that is neither a digit nor an underscore. *)
Fixpoint scan_digits (s : str) (prev_underscore : bool) (acc ndigits : Z)
  : option (Z * Z * str) :=
  match s with
  | c :: rest =>
      if is_digit c then
        scan_digits rest false (acc * 10 + (c - 48)) (ndigits + 1)
      else if c =? 95 then
        if prev_underscore then None
        else scan_digits rest true acc ndigits
      else if prev_underscore then None
      else Some (acc, ndigits, s)
  | [] => if prev_underscore then None else Some (acc, ndigits, [])
  end.

Definition int_max_str_digits : Z := 4300.

(** The message shows the text between quotes; [repr]'s escapes are not
    modelled, and no handler prints the message of a [ValueError]. *)
Definition invalid_literal (s : str) : exn :=
  mk_exn ValueError
    (u "invalid literal for int() with base 10: '" ++ s ++ u "'").

Definition py_int (s : str) : result Z :=
  let t := skip_spaces (map to_ascii_decimal_and_space s) in
  let '(negative, t) :=
    match t with
    | c :: t' =>
        if c =? 43 then (false, t')
        else if c =? 45 then (true, t')
        else (false, t)
    | [] => (false, t)
    end in
  match t with
  | c :: _ =>
      if is_digit c then
        match scan_digits t false 0 0 with
        | Some (v, ndigits, rest) =>
            if int_max_str_digits <? ndigits then Raise (invalid_literal s)
            else match skip_spaces rest with
                 | [] => Ret (if negative then - v else v)
                 | _ :: _ => Raise (invalid_literal s)
                 end
        | None => Raise (invalid_literal s)
        end
      else Raise (invalid_literal s)
  | [] => Raise (invalid_literal s)
  end.

(** ** The [random] module

    The generator is a tape of raw draws and a cursor.  [randbelow n]
    reads one cell and reduces it to [0 .. n-1]; every value of the range
    is produced by some tape, and nothing outside it by any. *)

Record rng : Type := mk_rng { tape : nat -> Z; cursor : nat }.

Definition M (A : Type) : Type := rng -> result A * rng.

Definition ret {A} (a : A) : M A := fun r => (Ret a, r).

Definition raise {A} (e : exn) : M A := fun r => (Raise e, r).

Definition bind {A B} (m : M A) (k : A -> M B) : M B :=
  fun r =>
    match m r with
    | (Ret a, r') => k a r'
    | (Raise e, r') => (Raise e, r')
    end.

Notation "x <- m ;; k" := (bind m (fun x => k))
  (at level 61, m at next level, right associativity).

Definition lift {A} (m : result A) : M A := fun r => (m, r).

(** [try: body except Exception as e: handler(e)]. *)
Definition try_except {A} (body : M A) (handler : exn -> M A) : M A :=
  fun r =>
    match body r with
    | (Ret a, r') => (Ret a, r')
    | (Raise e, r') => handler e r'
    end.

(** What the caller of a handler sees. *)
Definition run {A} (m : M A) (r : rng) : result A := fst (m r).

Definition randbelow (n : Z) : M Z :=
  fun r => (Ret (tape r (cursor r) mod n), mk_rng (tape r) (S (cursor r))).

(** [random.randint(a, b)]. *)
Definition randint (a b : Z) : M Z :=
  if b <? a then raise (mk_exn ValueError (u "empty range for randrange()"))
  else k <- randbelow (b - a + 1) ;; ret (a + k).

(** [random.choice(seq)]. *)
Definition choice {A} (default : A) (l : list A) : M A :=
  match l with
  | [] => raise (mk_exn IndexError (u "Cannot choose from an empty sequence"))
  | _ :: _ => k <- randbelow (py_len l) ;; ret (nth (Z.to_nat k) l default)
  end.

(** [[f(x) for x in xs]], and a [for] loop that appends one value per
    turn. *)
Fixpoint mapM {A B} (f : A -> M B) (xs : list A) : M (list B) :=
  match xs with
  | [] => ret []
  | x :: xs' => y <- f x ;; ys <- mapM f xs' ;; ret (y :: ys)
  end.

(** ** [list.sort]

    The sort is stable.  A stable sort is determined by its key order, so
    insertion stands for CPython's merge sort.  With [reverse=True]
    CPython reverses the list, sorts it, and reverses the outcome, which
    is what keeps equal keys in their first order. *)
Fixpoint insert_by {A} (key : A -> Z) (x : A) (l : list A) : list A :=
  match l with
  | [] => [x]
  | y :: l' => if key x <=? key y then x :: l else y :: insert_by key x l'
  end.

Definition stable_sort {A} (key : A -> Z) (l : list A) : list A :=
  fold_right (insert_by key) [] l.

Definition py_sort {A} (key : A -> Z) (reverse : bool) (l : list A) : list A :=
  if reverse then rev (stable_sort key (rev l)) else stable_sort key l.

(** ** Floats: [a / b] on small integers and the [.1f] format

    For operands from 0 to 2^53, both exact as doubles, the true division
    of the integers is the IEEE division of their doubles (the program
    divides by the constant 6 only).  The format rounds the exact binary
    value to one decimal, ties to even. *)
Definition py_truediv (a b : Z) : float :=
  PrimFloat.div (PrimFloat.of_uint63 (Uint63.of_Z a))
                (PrimFloat.of_uint63 (Uint63.of_Z b)).

(** Tenths nearest to [m * 2^e], ties to even. *)
Definition round_tenths (m e : Z) : Z :=
  if 0 <=? e then 10 * m * 2 ^ e
  else
    let den := 2 ^ (- e) in
    let q := (10 * m) / den in
    let r := (10 * m) mod den in
    if 2 * r <? den then q
    else if den <? 2 * r then q + 1
    else if Z.even q then q else q + 1.

Definition format_1f (x : float) : str :=
  match Prim2SF x with
  | S754_nan => u "nan"
  | S754_infinity s => (if s then u "-" else []) ++ u "inf"
  | S754_zero s => (if s then u "-" else []) ++ u "0.0"
  | S754_finite s m e =>
      let t := round_tenths (Zpos m) e in
      (if s then u "-" else []) ++ py_str (t / 10) ++ u "." ++ py_str (t mod 10)
  end.

(* ================================================================== *)
(** * Part II: the program *)
(* ================================================================== *)

(** ** Utility functions *)

(** The expression [int(x) if x.strip() else d], which four handlers
    apply to their numeric arguments. *)
Definition int_arg (x : str) (d : Z) : result Z :=
  if truthy (py_strip x) then py_int x else Ret d.

Definition roll_single_die (sides : Z) : M Z := randint 1 sides.

(** The pair [(count, sides)], or [(None, None)]; the bare [except]
    turns every exception of the body into [(None, None)]. *)
Definition parse_dice_notation (notation : str) : option Z * option Z :=
  let body : result (option Z * option Z) :=
    let notation := py_lower (py_strip notation) in
    if negb (py_contains 100 notation) then Ret (None, None)
    else
      let parts := py_split 100 notation in
      if negb (py_len parts =? 2) then Ret (None, None)
      else
        parts0 <~ getitem parts 0 ;;
        count <~ (if truthy parts0 then py_int parts0 else Ret 1) ;;
        parts1 <~ getitem parts 1 ;;
        sides <~ py_int parts1 ;;
        if (count <? 1) || (count >? 100) then Ret (None, None)
        else if (sides <? 2) || (sides >? 1000) then Ret (None, None)
        else Ret (Some count, Some sides)
  in
  match body with
  | Ret v => v
  | Raise _ => (None, None)
  end.

Definition format_roll_result (rolls : list Z) (total : Z) (notation : str)
  : str :=
  if py_len rolls =? 1 then
    u "🎲 Rolled " ++ notation ++ u ": **" ++ py_str total ++ u "**"
  else
    let rolls_str := py_join (u ", ") (map py_str rolls) in
    u "🎲 Rolled " ++ notation ++ u ": [" ++ rolls_str ++ u "] = **"
      ++ py_str total ++ u "**".

(** ** Tool handlers

    Logging is left out: it writes to stderr and has no part in what a
    handler returns. *)

Definition roll_dice (notation : str) : M str :=
  if negb (truthy (py_strip notation)) then
    ret (u "❌ Error: Please specify dice notation (e.g., 1d20, 2d6)")
  else
    try_except
      (match parse_dice_notation notation with
       | (Some count, Some sides) =>
           rolls <- mapM (fun _ => roll_single_die sides) (py_range count) ;;
           let total := py_sum rolls in
           ret (format_roll_result rolls total notation)
       | _ =>
           ret (u "❌ Error: Invalid dice notation. Use format like '1d20' or '2d6' (max 100 dice, 1000 sides)")
       end)
      (fun e => ret (u "❌ Error: " ++ exn_str e)).

Definition flip_coin (count : str) : M str :=
  try_except
    (num_flips <- lift (int_arg count 1) ;;
     if (num_flips <? 1) || (num_flips >? 100) then
       ret (u "❌ Error: Count must be between 1 and 100")
     else
       flips <- mapM (fun _ => choice [] [u "Heads"; u "Tails"])
                     (py_range num_flips) ;;
       if num_flips =? 1 then
         result <- lift (getitem flips 0) ;;
         let emoji := if str_eqb result (u "Heads") then u "👑" else u "🪙" in
         ret (emoji ++ u " Coin flip: **" ++ result ++ u "**")
       else
         let heads_count := py_count (u "Heads") flips in
         let tails_count := py_count (u "Tails") flips in
         let flips_str := py_join (u ", ") flips in
         ret (u "🪙 Flipped " ++ py_str num_flips ++ u " coins:" ++ nl
                ++ flips_str ++ nl ++ nl
                ++ u "Summary: " ++ py_str heads_count ++ u " Heads, "
                ++ py_str tails_count ++ u " Tails"))
    (fun e =>
       if is_value_error e then
         ret (u "❌ Error: Invalid count value: " ++ count)
       else ret (u "❌ Error: " ++ exn_str e)).

(** The three methods share their report: the values, their total and
    the average to one decimal. *)
Definition stats_report (title : str) (stats : list Z) : str :=
  let stats_str := py_join (u ", ") (map py_str stats) in
  let total := py_sum stats in
  let avg := py_truediv total 6 in
  u "🎲 D&D Ability Scores (" ++ title ++ u "):" ++ nl
    ++ stats_str ++ nl ++ nl
    ++ u "Total: " ++ py_str total ++ u " | Average: " ++ format_1f avg.

Definition roll_stats (method : str) : M str :=
  try_except
    (let method := py_lower (py_strip method) in
     if str_eqb method (u "standard") || str_eqb method [] then
       stats <- mapM (fun _ =>
                        rolls <- mapM (fun _ => roll_single_die 6)
                                      (py_range 4) ;;
                        let rolls := py_sort (fun x => x) false rolls in
                        let stat := py_sum (skipn 1 rolls) in
                        ret stat)
                     (py_range 6) ;;
       ret (stats_report (u "4d6 drop lowest") stats)
     else if str_eqb method (u "heroic") then
       stats <- mapM (fun _ =>
                        a <- roll_single_die 6 ;;
                        b <- roll_single_die 6 ;;
                        ret (a + b + 6))
                     (py_range 6) ;;
       ret (stats_report (u "2d6+6") stats)
     else if str_eqb method (u "straight") then
       stats <- mapM (fun _ =>
                        rolls <- mapM (fun _ => roll_single_die 6)
                                      (py_range 3) ;;
                        ret (py_sum rolls))
                     (py_range 6) ;;
       ret (stats_report (u "3d6") stats)
     else
       ret (u "❌ Error: Invalid method. Use 'standard', 'heroic', or 'straight'"))
    (fun e => ret (u "❌ Error: " ++ exn_str e)).

Definition roll_with_advantage (sides advantage_type : str) : M str :=
  try_except
    (num_sides <- lift (int_arg sides 20) ;;
     if (num_sides <? 2) || (num_sides >? 1000) then
       ret (u "❌ Error: Sides must be between 2 and 1000")
     else
       roll1 <- roll_single_die num_sides ;;
       roll2 <- roll_single_die num_sides ;;
       let adv_type := py_lower (py_strip advantage_type) in
       let report (result : Z) (emoji type_name : str) : M str :=
         ret (emoji ++ u " Rolling d" ++ py_str num_sides ++ u " with "
                ++ type_name ++ u ":" ++ nl
                ++ u "Rolls: " ++ py_str roll1 ++ u ", " ++ py_str roll2 ++ nl
                ++ u "Result: **" ++ py_str result ++ u "**") in
       if str_eqb adv_type (u "advantage") || str_eqb adv_type (u "adv") then
         report (Z.max roll1 roll2) (u "⬆️") (u "Advantage")
       else if str_eqb adv_type (u "disadvantage")
               || str_eqb adv_type (u "dis")
               || str_eqb adv_type (u "disadv") then
         report (Z.min roll1 roll2) (u "⬇️") (u "Disadvantage")
       else
         ret (u "❌ Error: Type must be 'advantage' or 'disadvantage'"))
    (fun e =>
       if is_value_error e then
         ret (u "❌ Error: Invalid sides value: " ++ sides)
       else ret (u "❌ Error: " ++ exn_str e)).

Definition percentile_roll : M str :=
  try_except
    (result <- randint 1 100 ;;
     let quality :=
       if result <=? 5 then u "Critical Success! 🌟"
       else if result <=? 25 then u "Success ✅"
       else if result <=? 75 then u "Moderate 📊"
       else if result <=? 95 then u "Failure ❌"
       else u "Critical Failure! 💥" in
     ret (u "🎲 Percentile Roll (d100): **" ++ py_str result ++ u "**" ++ nl
            ++ quality))
    (fun e => ret (u "❌ Error: " ++ exn_str e)).

(** One row of the initiative table: [(i + 1, roll, total)]. *)
Definition entry : Type := (Z * Z * Z)%type.
Definition entry_total (e : entry) : Z := snd e.

Definition bonus_str (bonus_val : Z) : str :=
  if bonus_val >=? 0 then u "+" ++ py_str bonus_val else py_str bonus_val.

Definition roll_initiative (bonus count : str) : M str :=
  try_except
    (num_count <- lift (int_arg count 1) ;;
     bonus_val <- lift (int_arg bonus 0) ;;
     if (num_count <? 1) || (num_count >? 20) then
       ret (u "❌ Error: Count must be between 1 and 20")
     else if (bonus_val <? -10) || (bonus_val >? 20) then
       ret (u "❌ Error: Bonus must be between -10 and +20")
     else
       initiatives <- mapM (fun i =>
                              roll <- roll_single_die 20 ;;
                              let total := roll + bonus_val in
                              ret (i + 1, roll, total))
                           (py_range num_count) ;;
       let initiatives := py_sort entry_total true initiatives in
       if num_count =? 1 then
         first <- lift (getitem initiatives 0) ;;
         let '(_, roll, total) := first in
         ret (u "⚔️ Initiative: " ++ py_str roll ++ u " " ++ bonus_str bonus_val
                ++ u " = **" ++ py_str total ++ u "**")
       else
         let result_lines :=
           u "⚔️ Initiative Order:"
           :: map (fun '(char_num, roll, total) =>
                     u "Character " ++ py_str char_num ++ u ": " ++ py_str roll
                       ++ u " " ++ bonus_str bonus_val
                       ++ u " = **" ++ py_str total ++ u "**")
                  initiatives in
         ret (py_join nl result_lines))
    (fun e =>
       if is_value_error e then ret (u "❌ Error: Invalid number value")
       else ret (u "❌ Error: " ++ exn_str e)).

Definition random_choice (options : str) : M str :=
  if negb (truthy (py_strip options)) then
    ret (u "❌ Error: Please provide comma-separated options (e.g., 'attack, defend, flee')")
  else
    try_except
      (let choices :=
         map py_strip
             (filter (fun opt => truthy (py_strip opt)) (py_split 44 options)) in
       if py_len choices <? 2 then
         ret (u "❌ Error: Please provide at least 2 options separated by commas")
       else if py_len choices >? 50 then
         ret (u "❌ Error: Maximum 50 options allowed")
       else
         choice <- choice [] choices ;;
         ret (u "🎯 Random Choice:" ++ nl
                ++ u "Options: " ++ py_join (u ", ") choices ++ nl
                ++ u "Selected: **" ++ choice ++ u "**"))
      (fun e => ret (u "❌ Error: " ++ exn_str e)).

Definition roll_loot (rarity : str) : M str :=
  try_except
    (let rarity_level := py_lower (py_strip rarity) in
     let report (roll : Z) (quality : str) : M str :=
       ret (u "💎 Loot Roll (" ++ py_capitalize rarity_level ++ u "):" ++ nl
              ++ u "Roll: " ++ py_str roll ++ nl
              ++ u "Result: " ++ quality) in
     if str_eqb rarity_level (u "common") || str_eqb rarity_level [] then
       roll <- roll_single_die 100 ;;
       report roll (if roll <=? 60 then u "Poor quality item"
                    else if roll <=? 90 then u "Average quality item"
                    else u "Good quality item")
     else if str_eqb rarity_level (u "uncommon") then
       roll <- roll_single_die 100 ;;
       report roll (if roll <=? 50 then u "Average quality item"
                    else if roll <=? 85 then u "Good quality item"
                    else u "Exceptional item! ✨")
     else if str_eqb rarity_level (u "rare") then
       roll <- roll_single_die 100 ;;
       report roll (if roll <=? 40 then u "Good quality item"
                    else if roll <=? 80 then u "Exceptional item! ✨"
                    else u "Masterwork item! ⭐")
     else if str_eqb rarity_level (u "legendary") then
       roll <- roll_single_die 100 ;;
       report roll (if roll <=? 30 then u "Exceptional item! ✨"
                    else if roll <=? 70 then u "Masterwork item! ⭐"
                    else u "Legendary artifact! 🏆")
     else
       ret (u "❌ Error: Rarity must be 'common', 'uncommon', 'rare', or 'legendary'"))
    (fun e => ret (u "❌ Error: " ++ exn_str e)).

(* ================================================================== *)
(** * Part III: the vocabulary of the properties *)
(* ================================================================== *)

(** ** Computations *)

(** A computation that always hands back a value with property [P]. *)
Definition returns {A} (m : M A) (P : A -> Prop) : Prop :=
  forall r, exists a r', m r = (Ret a, r') /\ P a.

(** The generator after one draw. *)
Definition advance (r : rng) : rng := mk_rng (tape r) (S (cursor r)).

(** The tape that yields [v] at every draw. *)
Definition constant_tape (v : Z) : rng := mk_rng (fun _ => v) 0.

(** The generator after [k] draws. *)
Definition advance_by (k : nat) (r : rng) : rng :=
  mk_rng (tape r) (k + cursor r).

(** A computation that hands back a value with property [P] after
    exactly [k] draws. *)
Definition draws {A} (m : M A) (k : nat) (P : A -> Prop) : Prop :=
  forall r, exists a, m r = (Ret a, advance_by k r) /\ P a.

(** The face that draw number [k] from the state [r] shows on a die of
    [sides] sides: the cell [k] places after the cursor, reduced to
    1..sides. *)
Definition face (sides : Z) (r : rng) (k : nat) : Z :=
  1 + tape r (k + cursor r) mod sides.

(** The generator that reads the cells of [l] in turn, then zeros. *)
Definition tape_of (l : list Z) : rng := mk_rng (fun n => nth n l 0) 0.

(** ** Digits *)

Definition digit_char (c : char) : Prop := 48 <= c <= 57.

(** The number a digit string denotes, read after the value [a]. *)
Definition digits_value (ds : str) (a : Z) : Z :=
  fold_left (fun a c => a * 10 + (c - 48)) ds a.

(** ** Orders on keys *)

Definition key_le {A} (key : A -> Z) (a b : A) : Prop := key a <= key b.
Definition key_ge {A} (key : A -> Z) (a b : A) : Prop := key a >= key b.
Definition has_key {A} (key : A -> Z) (t : Z) (a : A) : bool := key a =? t.

(** ** Ability scores *)

(** The three highest of four dice, added up. *)
Definition sum_highest_three (d1 d2 d3 d4 : Z) : Z :=
  d1 + d2 + d3 + d4 - Z.min (Z.min d1 d2) (Z.min d3 d4).

(** One score of the standard method: four dice, the lowest dropped. *)
Definition drops_lowest (dice : list Z) (stat : Z) : Prop :=
  List.length dice = 4%nat /\
  Forall (fun v => 1 <= v <= 6) dice /\
  exists low,
    In low dice /\ Forall (fun v => low <= v) dice /\
    stat = py_sum dice - low.

(** The fraction [total / 6] in tenths, rounded to the nearest. *)
Definition average_tenths (total : Z) : Z := (10 * total + 3) / 6.

(** ** Answers *)

Definition is_error (text : str) : bool := startswith (u "❌ Error:") text.

(** A handler that never raises to its caller, answers with an error text
    when it turns its arguments down, and with another text otherwise. *)
Definition handler_contract (accepted : Prop) (handler : M str) : Prop :=
  forall rnd, exists text,
    run handler rnd = Ret text /\
    (accepted -> is_error text = false) /\
    (~ accepted -> is_error text = true).

(* ================================================================== *)
(** * Part IV: properties *)
(* ================================================================== *)

(** ** Running monadic code *)

(** Replaces every decoded literal of the goal by its code points. *)
Ltac eval_literals :=
  repeat match goal with
         | |- context [u ?s] =>
             let v := eval vm_compute in (u s) in
             change (u s) with v
         end.

Section Running.
Context {A B : Type}.

Lemma bind_ret (m : M A) (k : A -> M B) r a r' :
  m r = (Ret a, r') -> bind m k r = k a r'.
Proof. intros H. unfold bind. now rewrite H. Qed.

Lemma bind_raise (m : M A) (k : A -> M B) r e r' :
  m r = (Raise e, r') -> bind m k r = (Raise e, r').
Proof. intros H. unfold bind. now rewrite H. Qed.

Lemma try_except_ret (body : M A) (h : exn -> M A) r a r' :
  body r = (Ret a, r') -> try_except body h r = (Ret a, r').
Proof. intros H. unfold try_except. now rewrite H. Qed.

Lemma try_except_raise (body : M A) (h : exn -> M A) r e r' :
  body r = (Raise e, r') -> try_except body h r = h e r'.
Proof. intros H. unfold try_except. now rewrite H. Qed.

Lemma lift_ret (a : A) r : lift (Ret a) r = (Ret a, r).
Proof. reflexivity. Qed.

Lemma lift_raise (e : exn) r : @lift A (Raise e) r = (Raise e, r).
Proof. reflexivity. Qed.

End Running.

Lemma returns_ret {A} (a : A) (P : A -> Prop) : P a -> returns (ret a) P.
Proof. intros H r. exists a, r. now split. Qed.

Lemma returns_bind {A B} (m : M A) (k : A -> M B) P Q :
  returns m P -> (forall a, P a -> returns (k a) Q) -> returns (bind m k) Q.
Proof.
  intros Hm Hk r.
  destruct (Hm r) as (a & r1 & E1 & Pa).
  destruct (Hk a Pa r1) as (b & r2 & E2 & Qb).
  exists b, r2. split; [| exact Qb].
  now rewrite (bind_ret _ _ _ _ _ E1).
Qed.

Lemma returns_weaken {A} (m : M A) (P Q : A -> Prop) :
  returns m P -> (forall a, P a -> Q a) -> returns m Q.
Proof.
  intros Hm HPQ r. destruct (Hm r) as (a & r' & E & Pa).
  exists a, r'. auto.
Qed.

Lemma returns_try_except {A} (body : M A) h P :
  returns body P -> returns (try_except body h) P.
Proof.
  intros Hb r. destruct (Hb r) as (a & r' & E & Pa).
  exists a, r'. split; [| exact Pa]. now apply try_except_ret.
Qed.

Lemma returns_run {A} (m : M A) P r :
  returns m P -> exists a, run m r = Ret a /\ P a.
Proof.
  intros Hm. destruct (Hm r) as (a & r' & E & Pa).
  exists a. unfold run. now rewrite E.
Qed.

(** [mapM] returns when its body does, one value per element. *)
Lemma returns_mapM {A B} (f : A -> M B) (P : A -> B -> Prop) xs :
  (forall x, In x xs -> returns (f x) (P x)) ->
  returns (mapM f xs) (Forall2 P xs).
Proof.
  induction xs as [| x xs IH]; intros Hf; simpl.
  - apply returns_ret. constructor.
  - apply returns_bind with (P := P x); [apply Hf; now left |].
    intros y Py.
    apply returns_bind with (P := Forall2 P xs).
    + apply IH. intros x' Hx'. apply Hf. now right.
    + intros ys Pys. apply returns_ret. now constructor.
Qed.

(** ** The random primitives stay in range *)

Lemma randint_eq a b r :
  a <= b ->
  randint a b r = (Ret (a + tape r (cursor r) mod (b - a + 1)), advance r).
Proof.
  intros Hab. unfold randint.
  destruct (Z.ltb_spec b a); [lia | reflexivity].
Qed.

Lemma randint_returns a b :
  a <= b -> returns (randint a b) (fun v => a <= v <= b).
Proof.
  intros Hab r. rewrite (randint_eq a b r Hab).
  eexists _, _. split; [reflexivity |].
  pose proof (Z.mod_pos_bound (tape r (cursor r)) (b - a + 1)). lia.
Qed.

Lemma roll_single_die_returns sides :
  1 <= sides -> returns (roll_single_die sides) (fun v => 1 <= v <= sides).
Proof. apply randint_returns. Qed.

Lemma choice_returns {A} (d : A) l :
  l <> [] -> returns (choice d l) (fun x => In x l).
Proof.
  intros Hl r. destruct l as [| x l]; [congruence |].
  unfold choice, bind, randbelow, ret.
  eexists _, _. split; [reflexivity |].
  apply nth_In.
  pose proof (Z.mod_pos_bound (tape r (cursor r)) (py_len (x :: l))).
  unfold py_len in *. simpl List.length in *. lia.
Qed.

Lemma randint_onto a b v :
  a <= v <= b -> run (randint a b) (constant_tape (v - a)) = Ret v.
Proof.
  intros Hv. unfold run. rewrite randint_eq by lia. simpl.
  rewrite Z.mod_small by lia. f_equal. lia.
Qed.

(** ** Loot bands *)

(** C5.  For [roll_loot] with rarity "legendary" the d100 roll [r] lies in
    1..100 and picks one band: up to 30 the exceptional item, 31 to 70 the
    masterwork item, 71 and above the legendary artifact; every roll of
    1..100 can occur, so 30 and 31, and 70 and 71, fall on opposite sides of
    a boundary. *)
Theorem roll_loot_legendary_bands :
  forall rarity,
    py_lower (py_strip rarity) = u "legendary" ->
    (forall rnd, exists r quality,
        run (roll_single_die 100) rnd = Ret r /\ 1 <= r <= 100 /\
        run (roll_loot rarity) rnd =
          Ret (u "💎 Loot Roll (Legendary):" ++ nl
                 ++ u "Roll: " ++ py_str r ++ nl
                 ++ u "Result: " ++ quality) /\
        (r <= 30 -> quality = u "Exceptional item! ✨") /\
        (31 <= r <= 70 -> quality = u "Masterwork item! ⭐") /\
        (71 <= r -> quality = u "Legendary artifact! 🏆")) /\
    (forall r, 1 <= r <= 100 ->
               exists rnd, run (roll_single_die 100) rnd = Ret r) /\
    u "Exceptional item! ✨" <> u "Masterwork item! ⭐" /\
    u "Masterwork item! ⭐" <> u "Legendary artifact! 🏆" /\
    u "Exceptional item! ✨" <> u "Legendary artifact! 🏆".
Proof.
  intros rarity Hr. split; [| split].
  - intros rnd.
    destruct (roll_single_die_returns 100 ltac:(lia) rnd) as (r & r' & E & Hrange).
    exists r, (if r <=? 30 then u "Exceptional item! ✨"
               else if r <=? 70 then u "Masterwork item! ⭐"
               else u "Legendary artifact! 🏆").
    split; [unfold run; now rewrite E |]. split; [exact Hrange |].
    split.
    + unfold run, roll_loot. rewrite Hr.
      erewrite try_except_ret; [reflexivity |].
      change (str_eqb (u "legendary") (u "common")) with false.
      change (str_eqb (u "legendary") []) with false.
      change (str_eqb (u "legendary") (u "uncommon")) with false.
      change (str_eqb (u "legendary") (u "rare")) with false.
      change (str_eqb (u "legendary") (u "legendary")) with true.
      cbn [orb]. cbv iota.
      rewrite (bind_ret _ _ _ _ _ E). unfold ret.
      reflexivity.
    + repeat split; intros H.
      * destruct (Z.leb_spec r 30); [reflexivity | lia].
      * destruct (Z.leb_spec r 30); [lia |].
        destruct (Z.leb_spec r 70); [reflexivity | lia].
      * destruct (Z.leb_spec r 30); [lia |].
        destruct (Z.leb_spec r 70); [lia | reflexivity].
  - intros r Hrange. exists (constant_tape (r - 1)).
    now apply randint_onto.
  - repeat split; intros H; vm_compute in H; discriminate H.
Qed.

(** The theorem at " Legendary " and the roll 31. *)
Lemma roll_loot_legendary_bands_witness :
  py_lower (py_strip (u " Legendary ")) = u "legendary" /\
  exists r quality,
    run (roll_single_die 100) (constant_tape 30) = Ret r /\
    run (roll_loot (u " Legendary ")) (constant_tape 30)
    = Ret (u "💎 Loot Roll (Legendary):" ++ nl
             ++ u "Roll: " ++ py_str r ++ nl
             ++ u "Result: " ++ quality) /\
    (31 <= r <= 70 -> quality = u "Masterwork item! ⭐").
Proof.
  split; [reflexivity |].
  destruct (roll_loot_legendary_bands (u " Legendary ") eq_refl) as [H _].
  destruct (H (constant_tape 30)) as (r & quality & Hr & _ & Hrun & _ & Hmid & _).
  exists r, quality. auto.
Defined.

(** ** Coin flips *)

Lemma coin_returns :
  returns (choice [] [u "Heads"; u "Tails"])
          (fun x => x = u "Heads" \/ x = u "Tails").
Proof.
  eapply returns_weaken; [apply choice_returns; discriminate |].
  intros x [H | [H | []]]; auto.
Qed.

(** C9.  [flip_coin] answers with the range error whenever the count it
    parsed lies outside 1..100, as for "0" and "101"; for "1" it answers
    with one flip, Heads with the crown or Tails with the coin, and both
    occur. *)
Theorem flip_coin_range_and_single :
  (forall count n rnd,
      int_arg count 1 = Ret n -> n < 1 \/ 100 < n ->
      run (flip_coin count) rnd =
        Ret (u "❌ Error: Count must be between 1 and 100")) /\
  (forall rnd, run (flip_coin (u "0")) rnd =
                 Ret (u "❌ Error: Count must be between 1 and 100")) /\
  (forall rnd, run (flip_coin (u "101")) rnd =
                 Ret (u "❌ Error: Count must be between 1 and 100")) /\
  (forall rnd, run (flip_coin (u "1")) rnd = Ret (u "👑 Coin flip: **Heads**")
               \/ run (flip_coin (u "1")) rnd = Ret (u "🪙 Coin flip: **Tails**")) /\
  (exists rnd, run (flip_coin (u "1")) rnd = Ret (u "👑 Coin flip: **Heads**")) /\
  (exists rnd, run (flip_coin (u "1")) rnd = Ret (u "🪙 Coin flip: **Tails**")).
Proof.
  assert (Hrange : forall count n rnd,
             int_arg count 1 = Ret n -> n < 1 \/ 100 < n ->
             run (flip_coin count) rnd =
               Ret (u "❌ Error: Count must be between 1 and 100")).
  { intros count n rnd Hn Hout. unfold run, flip_coin, try_except, bind.
    rewrite Hn, lift_ret.
    destruct (Z.ltb_spec n 1); [reflexivity |].
    destruct (Z.gtb_spec n 100); [reflexivity | lia]. }
  split; [exact Hrange |].
  split; [intros rnd; apply (Hrange _ 0); [reflexivity | lia] |].
  split; [intros rnd; apply (Hrange _ 101); [reflexivity | lia] |].
  split; [| split].
  - intros rnd.
    destruct (coin_returns rnd) as (x & r' & E & Hx).
    unfold run, flip_coin, try_except, bind.
    change (int_arg (u "1") 1) with (@Ret Z 1). rewrite lift_ret.
    change (py_range 1) with [0]. cbn [Z.ltb Z.gtb Z.compare Pos.compare Pos.compare_cont orb Z.eqb Pos.eqb].
    unfold mapM, bind. rewrite E. unfold ret.
    destruct Hx as [-> | ->]; [left | right]; reflexivity.
  - exists (constant_tape 0). reflexivity.
  - exists (constant_tape 1). reflexivity.
Qed.

(** The theorem at counts that parse to 0 and to 101. *)
Lemma flip_coin_range_and_single_witness :
  (int_arg (u " 0 ") 1 = Ret 0 /\ (0 < 1 \/ 100 < 0)) /\
  run (flip_coin (u " 0 ")) (constant_tape 0) =
    Ret (u "❌ Error: Count must be between 1 and 100").
Proof.
  split.
  - split; [reflexivity | left; lia].
  - apply (proj1 flip_coin_range_and_single (u " 0 ") 0 (constant_tape 0));
      [reflexivity | left; lia].
Defined.

(** ** Advantage and disadvantage *)

Lemma roll_single_die_eq sides r :
  1 <= sides ->
  roll_single_die sides r
  = (Ret (1 + tape r (cursor r) mod sides), advance r).
Proof.
  intros H. unfold roll_single_die. rewrite randint_eq by lia.
  now replace (sides - 1 + 1) with sides by lia.
Qed.

(** Decides the comparisons of a known word with the handlers' keywords. *)
Ltac decide_keywords :=
  repeat match goal with
         | |- context [str_eqb (u ?a) ?b] =>
             let v := eval vm_compute in (str_eqb (u a) b) in
             change (str_eqb (u a) b) with v
         end;
  cbn [orb andb negb]; cbv iota.

(** The handler once its sides are parsed and in range: both dice are
    rolled before the type is looked at. *)
Lemma roll_with_advantage_rolled sides advantage_type S rnd :
  int_arg sides 20 = Ret S -> 2 <= S <= 1000 ->
  let roll1 := 1 + tape rnd (cursor rnd) mod S in
  let roll2 := 1 + tape (advance rnd) (cursor (advance rnd)) mod S in
  roll_with_advantage sides advantage_type rnd
  = (let adv_type := py_lower (py_strip advantage_type) in
     let text result emoji type_name :=
       emoji ++ u " Rolling d" ++ py_str S ++ u " with "
         ++ type_name ++ u ":" ++ nl
         ++ u "Rolls: " ++ py_str roll1 ++ u ", " ++ py_str roll2 ++ nl
         ++ u "Result: **" ++ py_str result ++ u "**" in
     if str_eqb adv_type (u "advantage") || str_eqb adv_type (u "adv") then
       (Ret (text (Z.max roll1 roll2) (u "⬆️") (u "Advantage")),
        advance (advance rnd))
     else if str_eqb adv_type (u "disadvantage")
             || str_eqb adv_type (u "dis")
             || str_eqb adv_type (u "disadv") then
       (Ret (text (Z.min roll1 roll2) (u "⬇️") (u "Disadvantage")),
        advance (advance rnd))
     else
       (Ret (u "❌ Error: Type must be 'advantage' or 'disadvantage'"),
        advance (advance rnd))).
Proof.
  intros HS Hrange roll1 roll2.
  pose proof (roll_single_die_eq S rnd ltac:(lia)) as E1.
  pose proof (roll_single_die_eq S (advance rnd) ltac:(lia)) as E2.
  fold roll1 in E1. fold roll2 in E2.
  unfold roll_with_advantage, try_except, bind.
  rewrite HS, lift_ret.
  destruct (Z.ltb_spec S 2); [lia |].
  destruct (Z.gtb_spec S 1000); [lia |].
  cbn [orb]. cbv iota. rewrite E1, E2. cbv zeta.
  destruct (str_eqb _ (u "advantage") || str_eqb _ (u "adv"));
    [reflexivity |].
  destruct (str_eqb _ (u "disadvantage") || str_eqb _ (u "dis")
            || str_eqb _ (u "disadv")); reflexivity.
Qed.

(** C7.  For sides that parse to [S] in 2..1000, [roll_with_advantage]
    draws two rolls in 1..S, the first two draws of the generator and no
    more; with "advantage" or "adv" it reports their maximum, at least each
    roll, and with "disadvantage", "dis" or "disadv" their minimum, at most
    each roll. *)
Theorem roll_with_advantage_keeps_extreme :
  forall sides advantage_type S rnd,
    int_arg sides 20 = Ret S -> 2 <= S <= 1000 ->
    exists roll1 roll2,
      roll_single_die S rnd = (Ret roll1, advance rnd) /\
      roll_single_die S (advance rnd) = (Ret roll2, advance (advance rnd)) /\
      1 <= roll1 <= S /\ 1 <= roll2 <= S /\
      snd (roll_with_advantage sides advantage_type rnd)
      = advance (advance rnd) /\
      (In (py_lower (py_strip advantage_type)) [u "advantage"; u "adv"] ->
       exists result,
         run (roll_with_advantage sides advantage_type) rnd =
           Ret (u "⬆️ Rolling d" ++ py_str S ++ u " with Advantage:" ++ nl
                  ++ u "Rolls: " ++ py_str roll1 ++ u ", " ++ py_str roll2 ++ nl
                  ++ u "Result: **" ++ py_str result ++ u "**") /\
         result = Z.max roll1 roll2 /\ roll1 <= result /\ roll2 <= result) /\
      (In (py_lower (py_strip advantage_type))
          [u "disadvantage"; u "dis"; u "disadv"] ->
       exists result,
         run (roll_with_advantage sides advantage_type) rnd =
           Ret (u "⬇️ Rolling d" ++ py_str S ++ u " with Disadvantage:" ++ nl
                  ++ u "Rolls: " ++ py_str roll1 ++ u ", " ++ py_str roll2 ++ nl
                  ++ u "Result: **" ++ py_str result ++ u "**") /\
         result = Z.min roll1 roll2 /\ result <= roll1 /\ result <= roll2).
Proof.
  intros sides advantage_type S rnd HS Hrange.
  pose proof (roll_single_die_eq S rnd ltac:(lia)) as E1.
  pose proof (roll_single_die_eq S (advance rnd) ltac:(lia)) as E2.
  set (roll1 := 1 + tape rnd (cursor rnd) mod S) in *.
  set (roll2 := 1 + tape (advance rnd) (cursor (advance rnd)) mod S) in *.
  assert (H1 : 1 <= roll1 <= S).
  { pose proof (Z.mod_pos_bound (tape rnd (cursor rnd)) S). lia. }
  assert (H2 : 1 <= roll2 <= S).
  { pose proof (Z.mod_pos_bound (tape (advance rnd) (cursor (advance rnd))) S).
    lia. }
  exists roll1, roll2.
  split; [exact E1 |]. split; [exact E2 |].
  split; [exact H1 |]. split; [exact H2 |].
  pose proof (roll_with_advantage_rolled sides advantage_type S rnd HS Hrange)
    as Hstep.
  cbv zeta in Hstep. fold roll1 roll2 in Hstep.
  split.
  { rewrite Hstep. cbv zeta.
    destruct (str_eqb _ (u "advantage") || str_eqb _ (u "adv"));
      [reflexivity |].
    destruct (str_eqb _ (u "disadvantage") || str_eqb _ (u "dis")
              || str_eqb _ (u "disadv")); reflexivity. }
  split.
  - intros Hadv. exists (Z.max roll1 roll2).
    split; [| lia].
    unfold run. rewrite Hstep. cbv zeta.
    destruct Hadv as [<- | [<- | []]]; decide_keywords; reflexivity.
  - intros Hdis. exists (Z.min roll1 roll2).
    split; [| lia].
    unfold run. rewrite Hstep. cbv zeta.
    destruct Hdis as [<- | [<- | [<- | []]]]; decide_keywords; reflexivity.
Qed.

(** The theorem at a d20 rolled with advantage. *)
Lemma roll_with_advantage_keeps_extreme_witness :
  (int_arg (u "20") 20 = Ret 20 /\ 2 <= 20 <= 1000) /\
  exists roll1 roll2,
    1 <= roll1 <= 20 /\ 1 <= roll2 <= 20 /\
    snd (roll_with_advantage (u "20") (u "advantage") (constant_tape 6))
    = advance (advance (constant_tape 6)).
Proof.
  split; [split; [reflexivity | lia] |].
  destruct (roll_with_advantage_keeps_extreme
              (u "20") (u "advantage") 20 (constant_tape 6) eq_refl
              ltac:(lia))
    as (roll1 & roll2 & _ & _ & H1 & H2 & Hs & _).
  exists roll1, roll2. auto.
Defined.

(** ** Text: digits, [str] and [int] *)

(** Settles the comparisons of the goal from the arithmetic hypotheses. *)
Ltac settle_tests :=
  repeat match goal with
         | |- context [?a <=? ?b] => destruct (Z.leb_spec a b); try lia
         | |- context [?a <? ?b] => destruct (Z.ltb_spec a b); try lia
         | |- context [?a >? ?b] => destruct (Z.gtb_spec a b); try lia
         | |- context [?a >=? ?b] => destruct (Z.geb_spec a b); try lia
         | |- context [?a =? ?b] => destruct (Z.eqb_spec a b); try lia
         end.

Lemma digit_char_is_digit c : digit_char c -> is_digit c = true.
Proof. unfold digit_char, is_digit. intros H. now settle_tests. Qed.

Lemma digit_char_not_space c : digit_char c -> py_isspace c = false.
Proof. unfold digit_char, py_isspace. intros H. now settle_tests. Qed.

Lemma digit_char_ascii c :
  digit_char c -> to_ascii_decimal_and_space c = c.
Proof. unfold digit_char, to_ascii_decimal_and_space. intros H. now settle_tests. Qed.

Lemma digit_char_lower c : digit_char c -> lower_char c = c.
Proof. unfold digit_char, lower_char. intros H. now settle_tests. Qed.

Lemma digits_of_step fuel n acc :
  digits_of (S fuel) n acc
  = if n <? 10 then (48 + n mod 10) :: acc
    else digits_of fuel (n / 10) ((48 + n mod 10) :: acc).
Proof. reflexivity. Qed.

Lemma digits_of_spec fuel :
  forall n acc,
    0 <= n < 2 ^ Z.of_nat (S fuel) ->
    exists ds,
      digits_of (S fuel) n acc = ds ++ acc /\ ds <> [] /\
      Forall digit_char ds /\ (List.length ds <= S fuel)%nat /\
      forall a, digits_value ds a = a * 10 ^ Z.of_nat (List.length ds) + n.
Proof.
  induction fuel as [| fuel IH]; intros n acc Hn.
  - change (2 ^ Z.of_nat 1) with 2 in Hn.
    exists [48 + n mod 10]. cbn [digits_of].
    destruct (Z.ltb_spec n 10); [| lia].
    rewrite Z.mod_small by lia.
    repeat split; try discriminate.
    + repeat constructor; lia.
    + simpl; lia.
    + intros a. unfold digits_value. cbn [fold_left List.length].
      change (10 ^ Z.of_nat 1) with 10. lia.
  - rewrite digits_of_step. destruct (Z.ltb_spec n 10) as [Hlt | Hge].
    + exists [48 + n mod 10]. rewrite Z.mod_small by lia.
      repeat split; try discriminate.
      * repeat constructor; lia.
      * simpl; lia.
      * intros a. unfold digits_value. cbn [fold_left List.length].
        change (10 ^ Z.of_nat 1) with 10. lia.
    + assert (Hq : 0 <= n / 10 < 2 ^ Z.of_nat (S fuel)).
      { split; [apply Z.div_pos; lia |].
        apply Z.div_lt_upper_bound; [lia |].
        rewrite (Nat2Z.inj_succ (S fuel)), Z.pow_succ_r in Hn by lia. lia. }
      destruct (IH (n / 10) ((48 + n mod 10) :: acc) Hq)
        as (ds & E & Hne & Hds & Hlen & Hval).
      exists (ds ++ [48 + n mod 10]).
      pose proof (Z.mod_pos_bound n 10 ltac:(lia)) as Hm.
      repeat split.
      * rewrite E. now rewrite <- app_assoc.
      * intros Habs. now apply app_eq_nil in Habs.
      * apply Forall_app. split; [exact Hds |].
        repeat constructor; lia.
      * rewrite length_app. simpl. lia.
      * intros a. unfold digits_value in *. rewrite fold_left_app, Hval.
        rewrite length_app. cbn [fold_left List.length].
        rewrite Nat2Z.inj_add, Z.pow_add_r by lia.
        change (10 ^ Z.of_nat 1) with 10.
        pose proof (Z.div_mod n 10 ltac:(lia)). lia.
Qed.

(** [str(n)] of a natural number: a non-empty string of digits that
    denotes [n], of at most [log2 n + 1] characters. *)
Lemma py_str_digits n :
  0 <= n ->
  exists ds,
    py_str n = ds /\ ds <> [] /\ Forall digit_char ds /\
    Z.of_nat (List.length ds) <= Z.log2 n + 1 /\
    forall a, digits_value ds a = a * 10 ^ Z.of_nat (List.length ds) + n.
Proof.
  intros Hn. unfold py_str.
  destruct (Z.ltb_spec n 0); [lia |].
  rewrite Z.abs_eq by lia. cbn [app].
  destruct (digits_of_spec (Z.to_nat (Z.log2 n)) n []) as (ds & E & H1 & H2 & H3 & H4).
  - split; [lia |].
    rewrite Nat2Z.inj_succ, Z2Nat.id by apply Z.log2_nonneg.
    destruct (Z.eq_dec n 0) as [-> | Hnz]; [reflexivity |].
    apply Z.log2_spec. lia.
  - exists ds. rewrite E, app_nil_r.
    repeat split; auto.
    pose proof (Z.log2_nonneg n). lia.
Qed.

Lemma scan_digits_all ds :
  Forall digit_char ds ->
  forall acc k,
    scan_digits ds false acc k
    = Some (digits_value ds acc, k + Z.of_nat (List.length ds), []).
Proof.
  induction 1 as [| c ds Hc Hds IH]; intros acc k.
  - cbn. now rewrite Z.add_0_r.
  - cbn [scan_digits]. rewrite (digit_char_is_digit c Hc), IH.
    unfold digits_value. cbn [fold_left].
    replace (k + 1 + Z.of_nat (List.length ds))
      with (k + Z.of_nat (List.length (c :: ds)))
      by (cbn [List.length]; lia).
    reflexivity.
Qed.

Lemma map_fixed {A} (f : A -> A) l :
  Forall (fun x => f x = x) l -> map f l = l.
Proof. induction 1; simpl; congruence. Qed.

(** [int()] reads back a non-empty string of at most 4300 digits. *)
Lemma py_int_digits ds :
  ds <> [] -> Forall digit_char ds ->
  Z.of_nat (List.length ds) <= int_max_str_digits ->
  py_int ds = Ret (digits_value ds 0).
Proof.
  intros Hne Hds Hlen. unfold py_int.
  rewrite map_fixed
    by (eapply Forall_impl; [| exact Hds]; apply digit_char_ascii).
  destruct ds as [| c ds]; [congruence |].
  pose proof (Forall_inv Hds) as Hc.
  assert (Hsp : c_isspace c = false)
    by (unfold c_isspace, digit_char in *; now settle_tests).
  cbn [skip_spaces]. rewrite Hsp.
  assert (E43 : (c =? 43) = false) by (unfold digit_char in Hc; lia).
  assert (E45 : (c =? 45) = false) by (unfold digit_char in Hc; lia).
  rewrite E43, E45, (digit_char_is_digit c Hc), (scan_digits_all _ Hds).
  destruct (Z.ltb_spec int_max_str_digits (0 + Z.of_nat (List.length (c :: ds))));
    [lia | reflexivity].
Qed.

(** [int(str(n)) = n] for every integer of at most 4300 digits. *)
Lemma py_int_py_str n :
  Z.abs n < 2 ^ 4299 -> py_int (py_str n) = Ret n.
Proof.
  intros Hn.
  destruct (py_str_digits (Z.abs n) (Z.abs_nonneg n))
    as (ds & E & Hne & Hds & Hlen & Hval).
  assert (Hlen' : Z.of_nat (List.length ds) <= int_max_str_digits).
  { unfold int_max_str_digits.
    destruct (Z.eq_dec (Z.abs n) 0) as [E0 | Hnz].
    - rewrite E0 in Hlen. change (Z.log2 0) with 0 in Hlen. lia.
    - assert (Z.log2 (Z.abs n) < 4299) by (apply Z.log2_lt_pow2; lia). lia. }
  destruct (Z.ltb_spec n 0) as [Hneg | Hpos].
  - assert (Es : py_str n = 45 :: ds).
    { unfold py_str in *. destruct (Z.ltb_spec n 0); [| lia].
      destruct (Z.ltb_spec (Z.abs n) 0); [lia |].
      rewrite Z.abs_idemp in E. cbn [app] in *. now rewrite E. }
    rewrite Es. unfold py_int.
    cbn [map]. change (to_ascii_decimal_and_space 45) with 45.
    rewrite map_fixed
      by (eapply Forall_impl; [| exact Hds]; apply digit_char_ascii).
    cbn [skip_spaces]. change (c_isspace 45) with false. cbv iota.
    change (45 =? 43) with false. change (45 =? 45) with true. cbv iota.
    destruct ds as [| c ds]; [congruence |].
    pose proof (Forall_inv Hds) as Hc.
    rewrite (digit_char_is_digit c Hc), (scan_digits_all _ Hds).
    destruct (Z.ltb_spec int_max_str_digits (0 + Z.of_nat (List.length (c :: ds))));
      [lia |].
    cbn [skip_spaces]. rewrite Hval. f_equal. lia.
  - assert (Es : py_str n = ds).
    { rewrite Z.abs_eq in E by lia. exact E. }
    rewrite Es, py_int_digits by assumption.
    rewrite Hval. f_equal. lia.
Qed.

(** ** Text: [strip], [lower], [split] *)

Lemma py_lstrip_keeps c s : py_isspace c = false -> py_lstrip (c :: s) = c :: s.
Proof. intros H. cbn [py_lstrip]. now rewrite H. Qed.

Lemma py_rstrip_keeps s c : py_isspace c = false -> py_rstrip (s ++ [c]) = s ++ [c].
Proof.
  intros H. unfold py_rstrip. rewrite rev_app_distr. cbn [rev app].
  rewrite py_lstrip_keeps by exact H.
  change (c :: rev s) with ([c] ++ rev s).
  now rewrite rev_app_distr, rev_involutive.
Qed.

(** [strip()] leaves alone a text that starts and ends with characters
    that are not blank. *)
Lemma py_strip_keeps c s c' :
  py_isspace c = false -> py_isspace c' = false ->
  py_strip (c :: s ++ [c']) = c :: s ++ [c'].
Proof.
  intros H H'. unfold py_strip. rewrite py_lstrip_keeps by exact H.
  change (c :: s ++ [c']) with ((c :: s) ++ [c']).
  now apply py_rstrip_keeps.
Qed.

Lemma py_split_none sep s :
  py_contains sep s = false -> py_split sep s = [s].
Proof.
  induction s as [| c s IH]; [reflexivity |].
  unfold py_contains. cbn [existsb py_split]. intros H.
  apply orb_false_iff in H. destruct H as [Hc Hs].
  rewrite Z.eqb_sym, Hc. now rewrite (IH Hs).
Qed.

Lemma py_split_app sep a b :
  py_contains sep a = false ->
  py_split sep (a ++ sep :: b) = a :: py_split sep b.
Proof.
  induction a as [| c a IH]; intros H.
  - cbn [app py_split]. now rewrite Z.eqb_refl.
  - unfold py_contains in H. cbn [existsb] in H.
    apply orb_false_iff in H. destruct H as [Hc Ha].
    cbn [app py_split]. rewrite Z.eqb_sym, Hc. now rewrite (IH Ha).
Qed.

Lemma py_contains_app sep a b :
  py_contains sep (a ++ sep :: b) = true.
Proof.
  unfold py_contains. rewrite existsb_app. cbn [existsb].
  rewrite Z.eqb_refl. now rewrite orb_true_r.
Qed.

Lemma digits_no_d ds : Forall digit_char ds -> py_contains 100 ds = false.
Proof.
  induction 1 as [| c ds Hc Hds IH]; [reflexivity |].
  unfold py_contains in *. cbn [existsb]. rewrite IH.
  unfold digit_char in Hc. now settle_tests.
Qed.

(** Two parts mean one separator. *)
Lemma py_split_two sep s a b :
  py_split sep s = [a; b] -> py_contains sep s = true.
Proof.
  intros H. destruct (py_contains sep s) eqn:E; [reflexivity |].
  rewrite (py_split_none _ _ E) in H. discriminate H.
Qed.

(** ** The notation parser *)

(** What the parser makes of a notation whose count part is empty. *)
Lemma parse_dice_notation_empty_count notation sides_part :
  py_split 100 (py_lower (py_strip notation)) = [[]; sides_part] ->
  parse_dice_notation notation
  = match py_int sides_part with
    | Ret s => if (s <? 2) || (s >? 1000) then (None, None)
               else (Some 1, Some s)
    | Raise _ => (None, None)
    end.
Proof.
  intros H. unfold parse_dice_notation.
  rewrite (py_split_two _ _ _ _ H), H. cbn.
  destruct (py_int sides_part) as [s | e]; [| reflexivity].
  cbn. now destruct ((s <? 2) || (s >? 1000)).
Qed.

(** The parser on the text of two digit strings around a [d]. *)
Lemma parse_dice_notation_digits dc ds :
  dc <> [] -> ds <> [] ->
  Forall digit_char dc -> Forall digit_char ds ->
  py_strip (dc ++ u "d" ++ ds) = dc ++ u "d" ++ ds /\
  parse_dice_notation (dc ++ u "d" ++ ds)
  = match py_int dc, py_int ds with
    | Ret count, Ret sides =>
        if (count <? 1) || (count >? 100) then (None, None)
        else if (sides <? 2) || (sides >? 1000) then (None, None)
        else (Some count, Some sides)
    | _, _ => (None, None)
    end.
Proof.
  intros Hnc Hns Hdc Hds. change (u "d") with [100].
  assert (Hstrip : py_strip (dc ++ [100] ++ ds) = dc ++ [100] ++ ds).
  { destruct dc as [| c dc]; [congruence |].
    destruct (exists_last Hns) as (ds' & c' & ->).
    replace ((c :: dc) ++ [100] ++ ds' ++ [c'])
      with (c :: (dc ++ [100] ++ ds') ++ [c'])
      by (cbn [app]; now rewrite <- !app_assoc).
    apply py_strip_keeps; apply digit_char_not_space.
    - exact (Forall_inv Hdc).
    - apply Forall_app in Hds. exact (Forall_inv (proj2 Hds)). }
  split; [exact Hstrip |].
  unfold parse_dice_notation. rewrite Hstrip.
  assert (Hlow : py_lower (dc ++ [100] ++ ds) = dc ++ [100] ++ ds).
  { unfold py_lower. apply map_fixed.
    apply Forall_app. split.
    - eapply Forall_impl; [| exact Hdc]. apply digit_char_lower.
    - constructor; [reflexivity |].
      eapply Forall_impl; [| exact Hds]. apply digit_char_lower. }
  rewrite Hlow. cbn [app].
  rewrite py_contains_app, py_split_app by now apply digits_no_d.
  rewrite py_split_none by now apply digits_no_d.
  cbn [negb py_len List.length Z.of_nat Pos.of_succ_nat Pos.succ Z.eqb Pos.eqb
       getitem nth_error bindR].
  destruct dc as [| c dc]; [congruence |]. cbn [truthy].
  destruct (py_int (c :: dc)) as [count | e]; [| reflexivity]. cbn [bindR].
  destruct (py_int ds) as [sides | e]; [| reflexivity]. cbn [bindR].
  destruct ((count <? 1) || (count >? 100)); [reflexivity |].
  now destruct ((sides <? 2) || (sides >? 1000)).
Qed.

(** The canonical notation of a count and a number of sides in range
    parses to them. *)
Lemma parse_dice_notation_canonical C S :
  1 <= C <= 100 -> 2 <= S <= 1000 ->
  py_strip (py_str C ++ u "d" ++ py_str S) = py_str C ++ u "d" ++ py_str S /\
  parse_dice_notation (py_str C ++ u "d" ++ py_str S) = (Some C, Some S).
Proof.
  intros HC HS.
  destruct (py_str_digits C ltac:(lia)) as (dc & Ec & Hnc & Hdc & _ & _).
  destruct (py_str_digits S ltac:(lia)) as (ds & Es & Hns & Hds & _ & _).
  assert (Hbig : 2 ^ 10 <= 2 ^ 4299) by (apply Z.pow_le_mono_r; lia).
  change (2 ^ 10) with 1024 in Hbig.
  pose proof (py_int_py_str C ltac:(lia)) as Ic.
  pose proof (py_int_py_str S ltac:(lia)) as Is.
  rewrite Ec in *. rewrite Es in *.
  destruct (parse_dice_notation_digits dc ds Hnc Hns Hdc Hds) as [Hstrip Hparse].
  split; [exact Hstrip |].
  rewrite Hparse, Ic, Is. now settle_tests.
Qed.

(** A notation the parser accepts is not blank, and its values are in
    range. *)
Lemma parse_dice_notation_accepts notation C S :
  parse_dice_notation notation = (Some C, Some S) ->
  truthy (py_strip notation) = true /\ 1 <= C <= 100 /\ 2 <= S <= 1000.
Proof.
  unfold parse_dice_notation. intros H. split.
  - destruct (py_strip notation); [discriminate H | reflexivity].
  - destruct (negb (py_contains 100 (py_lower (py_strip notation))));
      [discriminate H |].
    destruct (negb (py_len (py_split 100 (py_lower (py_strip notation))) =? 2));
      [discriminate H |].
    destruct (getitem _ 0) as [p0 | e]; [| discriminate H]. cbn [bindR] in H.
    destruct (if truthy p0 then py_int p0 else Ret 1) as [count | e];
      [| discriminate H]. cbn [bindR] in H.
    destruct (getitem _ 1) as [p1 | e]; [| discriminate H]. cbn [bindR] in H.
    destruct (py_int p1) as [sides | e]; [| discriminate H]. cbn [bindR] in H.
    destruct (Z.ltb_spec count 1); [discriminate H |].
    destruct (Z.gtb_spec count 100); [discriminate H |].
    destruct (Z.ltb_spec sides 2); [discriminate H |].
    destruct (Z.gtb_spec sides 1000); [discriminate H |].
    cbn in H. injection H as <- <-. lia.
Qed.

(** C3.  The parser answers [(None, None)] on each of "d", "2d", "0d6",
    "101d6", "2d1", "2d1001", "abcd6" and "2dabc".  When the count part of
    a notation is empty the count is 1: the notation parses to count 1 and
    the sides its second part denotes when those are in 2..1000, and to
    [(None, None)] otherwise; "d20" parses to 1 and 20. *)
Theorem parse_dice_notation_rejects_malformed :
  Forall (fun s => parse_dice_notation (u s) = (None, None))
         ["d"; "2d"; "0d6"; "101d6"; "2d1"; "2d1001"; "abcd6"; "2dabc"]%string /\
  (forall notation sides_part,
      py_split 100 (py_lower (py_strip notation)) = [[]; sides_part] ->
      parse_dice_notation notation
      = match py_int sides_part with
        | Ret s => if (s <? 2) || (s >? 1000) then (None, None)
                   else (Some 1, Some s)
        | Raise _ => (None, None)
        end) /\
  parse_dice_notation (u "d20") = (Some 1, Some 20).
Proof.
  split; [| split].
  - repeat constructor.
  - exact parse_dice_notation_empty_count.
  - reflexivity.
Qed.

(** The theorem at " D20 ", whose count part is empty. *)
Lemma parse_dice_notation_rejects_malformed_witness :
  py_split 100 (py_lower (py_strip (u " D20 "))) = [[]; u "20"] /\
  parse_dice_notation (u " D20 ") = (Some 1, Some 20).
Proof.
  split; [reflexivity |].
  exact (proj1 (proj2 parse_dice_notation_rejects_malformed)
           (u " D20 ") (u "20") eq_refl).
Defined.

(** ** Rolling dice *)

Lemma Forall2_const_length {A B} (P : B -> Prop) (xs : list A) ys :
  Forall2 (fun _ y => P y) xs ys ->
  List.length ys = List.length xs /\ Forall P ys.
Proof. induction 1; simpl; intuition. Qed.

Lemma py_range_length n : 0 <= n -> py_len (py_range n) = n.
Proof.
  intros H. unfold py_len, py_range. rewrite length_map, length_seq. lia.
Qed.

Lemma advance_by_0 r : advance_by 0 r = r.
Proof. now destruct r. Qed.

Lemma advance_by_add j k r :
  advance_by k (advance_by j r) = advance_by (j + k) r.
Proof. unfold advance_by. cbn [tape cursor]. f_equal. lia. Qed.

Lemma py_range_nat_length n : 0 <= n -> List.length (py_range n) = Z.to_nat n.
Proof. intros H. unfold py_range. now rewrite length_map, length_seq. Qed.

(** ** What a loop draws

    A loop over [range(n)] whose body takes [k] draws and makes a value
    that depends on its index and on the state it starts from. *)

Lemma mapM_range_from {B} (f : Z -> M B) k (val : Z -> rng -> B) :
  (forall i r, f i r = (Ret (val i r), advance_by k r)) ->
  forall n s r,
    mapM f (map Z.of_nat (seq s n)) r
    = (Ret (map (fun j => val (Z.of_nat (s + j)) (advance_by (j * k) r))
                (seq 0 n)),
       advance_by (n * k) r).
Proof.
  intros Hf. induction n as [| n IH]; intros s r.
  - cbn. now rewrite advance_by_0.
  - cbn [seq map mapM].
    rewrite (bind_ret _ _ _ _ _ (Hf (Z.of_nat s) r)).
    rewrite (bind_ret _ _ _ _ _ (IH (S s) (advance_by k r))).
    unfold ret. rewrite advance_by_add, advance_by_0, Nat.add_0_r.
    rewrite <- seq_shift, map_map. cbn [Nat.mul].
    rewrite (map_ext
               (fun j => val (Z.of_nat (S s + j))
                             (advance_by (j * k) (advance_by k r)))
               (fun j => val (Z.of_nat (s + S j)) (advance_by (k + j * k) r)));
      [reflexivity |].
    intros j. now rewrite advance_by_add, Nat.add_succ_r.
Qed.

Lemma mapM_range {B} (f : Z -> M B) k (val : Z -> rng -> B) n r :
  (forall i r, f i r = (Ret (val i r), advance_by k r)) ->
  mapM f (py_range n) r
  = (Ret (map (fun j => val (Z.of_nat j) (advance_by (j * k) r))
              (seq 0 (Z.to_nat n))),
     advance_by (Z.to_nat n * k) r).
Proof. intros Hf. exact (mapM_range_from f k val Hf (Z.to_nat n) 0%nat r). Qed.

Lemma face_advance_by sides j r k :
  face sides (advance_by j r) k = face sides r (j + k).
Proof.
  unfold face, advance_by. cbn [tape cursor].
  now replace (k + (j + cursor r))%nat with (j + k + cursor r)%nat by lia.
Qed.

Lemma face_range sides r k : 1 <= sides -> 1 <= face sides r k <= sides.
Proof.
  intros H. unfold face.
  pose proof (Z.mod_pos_bound (tape r (k + cursor r)) sides). lia.
Qed.

(** One die: the face of the next draw. *)
Lemma roll_single_die_face sides r :
  1 <= sides ->
  roll_single_die sides r = (Ret (face sides r 0), advance_by 1 r).
Proof. intros H. now rewrite roll_single_die_eq. Qed.

(** [n] dice in a row: the faces of the next [n] draws, in order. *)
Lemma roll_many_faces sides n r :
  1 <= sides ->
  mapM (fun _ => roll_single_die sides) (py_range n) r
  = (Ret (map (face sides r) (seq 0 (Z.to_nat n))), advance_by (Z.to_nat n) r).
Proof.
  intros H.
  rewrite (mapM_range (fun _ => roll_single_die sides) 1
             (fun _ r => face sides r 0) n r)
    by (intros _ r'; now apply roll_single_die_face).
  rewrite Nat.mul_1_r.
  rewrite (map_ext (fun j => face sides (advance_by (j * 1) r) 0)
                   (face sides r)); [reflexivity |].
  intros j. rewrite face_advance_by. f_equal. lia.
Qed.

Lemma Forall2_map_same {A B C} (P : B -> C -> Prop) (f : A -> B) (g : A -> C) l :
  (forall x, In x l -> P (f x) (g x)) -> Forall2 P (map f l) (map g l).
Proof.
  induction l as [| x l IH]; intros H; cbn [map]; constructor.
  - apply H. now left.
  - apply IH. intros y Hy. apply H. now right.
Qed.

(** [count] dice of [sides] sides: as many values, each in range. *)
Lemma roll_many_returns sides count :
  1 <= sides -> 0 <= count ->
  returns (mapM (fun _ => roll_single_die sides) (py_range count))
          (fun rolls => py_len rolls = count /\
                        Forall (fun v => 1 <= v <= sides) rolls).
Proof.
  intros Hs Hc.
  eapply returns_weaken.
  - apply returns_mapM with (P := fun _ v => 1 <= v <= sides).
    intros x _. now apply roll_single_die_returns.
  - intros rolls H. apply Forall2_const_length in H. destruct H as [Hl Hf].
    split; [| exact Hf].
    rewrite <- (py_range_length count Hc). unfold py_len. now rewrite Hl.
Qed.

(** What [roll_dice] answers on any notation the parser accepts. *)
Lemma roll_dice_accepted notation C S rnd :
  parse_dice_notation notation = (Some C, Some S) ->
  exists rolls,
    py_len rolls = C /\ Forall (fun v => 1 <= v <= S) rolls /\
    run (roll_dice notation) rnd
    = Ret (format_roll_result rolls (py_sum rolls) notation).
Proof.
  intros Hp.
  destruct (parse_dice_notation_accepts _ _ _ Hp) as (Ht & HC & HS).
  destruct (roll_many_returns S C ltac:(lia) ltac:(lia) rnd)
    as (rolls & r' & E & Hlen & Hall).
  exists rolls. split; [exact Hlen |]. split; [exact Hall |].
  unfold run, roll_dice. rewrite Ht, Hp. cbn [negb].
  erewrite try_except_ret; [reflexivity |].
  now rewrite (bind_ret _ _ _ _ _ E).
Qed.

(** What [roll_dice] answers on a notation the parser accepts: the faces
    of the next [C] draws, in order, and their sum. *)
Lemma roll_dice_drawn notation C S rnd :
  parse_dice_notation notation = (Some C, Some S) ->
  let rolls := map (face S rnd) (seq 0 (Z.to_nat C)) in
  roll_dice notation rnd
  = (Ret (format_roll_result rolls (py_sum rolls) notation),
     advance_by (Z.to_nat C) rnd).
Proof.
  intros Hp rolls.
  destruct (parse_dice_notation_accepts _ _ _ Hp) as (Ht & HC & HS).
  unfold roll_dice. rewrite Ht, Hp. cbn [negb]. unfold try_except.
  now rewrite (bind_ret _ _ _ _ _ (roll_many_faces S C rnd ltac:(lia))).
Qed.

(** C2.  For the notation "CdS" with [C] in 1..100 and [S] in 2..1000,
    [roll_dice] rolls [C] values, the faces the next [C] draws of the
    generator show on a die of [S] sides, each in 1..S, and reports them in
    the order rolled with their sum as the total: one value is shown as
    "🎲 Rolled {notation}: **{total}**", several as
    "🎲 Rolled {notation}: [{r1, r2, ...}] = **{total}**". *)
Theorem roll_dice_valid_notation :
  forall C S rnd,
    1 <= C <= 100 -> 2 <= S <= 1000 ->
    let notation := py_str C ++ u "d" ++ py_str S in
    exists rolls total,
      rolls = map (face S rnd) (seq 0 (Z.to_nat C)) /\
      (forall k, roll_single_die S (advance_by k rnd)
                 = (Ret (face S rnd k), advance_by (k + 1) rnd)) /\
      py_len rolls = C /\
      Forall (fun v => 1 <= v <= S) rolls /\
      total = py_sum rolls /\
      total = fold_right Z.add 0 rolls /\
      snd (roll_dice notation rnd) = advance_by (Z.to_nat C) rnd /\
      (C = 1 ->
       run (roll_dice notation) rnd
       = Ret (u "🎲 Rolled " ++ notation ++ u ": **" ++ py_str total ++ u "**")) /\
      (C <> 1 ->
       run (roll_dice notation) rnd
       = Ret (u "🎲 Rolled " ++ notation ++ u ": ["
                ++ py_join (u ", ") (map py_str rolls) ++ u "] = **"
                ++ py_str total ++ u "**")).
Proof.
  intros C S rnd HC HS notation.
  destruct (parse_dice_notation_canonical C S HC HS) as [_ Hp].
  pose proof (roll_dice_drawn _ _ _ rnd Hp) as Hrun. cbv zeta in Hrun.
  fold notation in Hrun.
  set (rolls := map (face S rnd) (seq 0 (Z.to_nat C))) in *.
  assert (Hlen : py_len rolls = C).
  { unfold py_len, rolls. rewrite length_map, length_seq. lia. }
  exists rolls, (py_sum rolls).
  split; [reflexivity |].
  split.
  { intros k. rewrite roll_single_die_face by lia.
    now rewrite face_advance_by, advance_by_add, Nat.add_0_r. }
  split; [exact Hlen |].
  split.
  { apply Forall_forall. intros v Hv. apply in_map_iff in Hv.
    destruct Hv as (k & <- & _). apply face_range. lia. }
  split; [reflexivity |].
  split; [unfold py_sum; apply fold_symmetric; intros; lia |].
  split; [now rewrite Hrun |].
  unfold run. rewrite Hrun. unfold format_roll_result. rewrite Hlen.
  split; intros H.
  - destruct (Z.eqb_spec C 1); [reflexivity | contradiction].
  - destruct (Z.eqb_spec C 1); [contradiction | reflexivity].
Qed.

(** The theorem at "2d6" with the draws 2 and 5: the dice show 3 and 6. *)
Lemma roll_dice_valid_notation_witness :
  (1 <= 2 <= 100 /\ 2 <= 6 <= 1000) /\
  run (roll_dice (u "2d6")) (tape_of [2; 5])
  = Ret (u "🎲 Rolled 2d6: [3, 6] = **9**").
Proof.
  split; [lia |].
  destruct (roll_dice_valid_notation 2 6 (tape_of [2; 5]) ltac:(lia)
              ltac:(lia))
    as (rolls & total & -> & _ & _ & _ & -> & _ & _ & _ & Hmany).
  exact (Hmany ltac:(discriminate)).
Defined.

(** ** [list.sort] sorts, permutes and is stable *)

Section Sorting.
Context {A : Type} (key : A -> Z).

Lemma insert_by_perm x l : Permutation (insert_by key x l) (x :: l).
Proof.
  induction l as [| y l IH]; cbn [insert_by]; [reflexivity |].
  destruct (key x <=? key y); [reflexivity |].
  rewrite IH. apply perm_swap.
Qed.

Lemma stable_sort_perm l : Permutation (stable_sort key l) l.
Proof.
  induction l as [| x l IH]; cbn; [reflexivity |].
  fold (stable_sort key l). rewrite insert_by_perm. now constructor.
Qed.

Lemma insert_by_sorted x l :
  StronglySorted (key_le key) l -> StronglySorted (key_le key) (insert_by key x l).
Proof.
  induction 1 as [| y l Hl IH Hy]; cbn [insert_by].
  - repeat constructor.
  - destruct (Z.leb_spec (key x) (key y)) as [Hxy | Hyx].
    + constructor; [now constructor |].
      constructor; [exact Hxy |].
      eapply Forall_impl; [| exact Hy]. unfold key_le. intros; lia.
    + constructor; [exact IH |].
      eapply Permutation_Forall; [symmetry; apply insert_by_perm |].
      constructor; [unfold key_le; lia | exact Hy].
Qed.

Lemma stable_sort_sorted l : StronglySorted (key_le key) (stable_sort key l).
Proof.
  induction l as [| x l IH]; cbn; [constructor |].
  now apply insert_by_sorted.
Qed.

(** Insertion never lets an element overtake one of the same key. *)
Lemma insert_by_stable t x l :
  filter (has_key key t) (insert_by key x l) = filter (has_key key t) (x :: l).
Proof.
  induction l as [| y l IH]; cbn [insert_by]; [reflexivity |].
  destruct (Z.leb_spec (key x) (key y)) as [Hxy | Hyx]; [reflexivity |].
  cbn [filter] in *. rewrite IH. unfold has_key.
  destruct (Z.eqb_spec (key x) t), (Z.eqb_spec (key y) t);
    try reflexivity; lia.
Qed.

Lemma stable_sort_stable t l :
  filter (has_key key t) (stable_sort key l) = filter (has_key key t) l.
Proof.
  induction l as [| x l IH]; cbn [stable_sort fold_right]; [reflexivity |].
  fold (stable_sort key l). rewrite insert_by_stable.
  cbn [filter]. now rewrite IH.
Qed.

Lemma StronglySorted_snoc (R : A -> A -> Prop) l a :
  StronglySorted R l -> Forall (fun x => R x a) l ->
  StronglySorted R (l ++ [a]).
Proof.
  induction 1 as [| y l Hl IH Hy]; intros Ha; cbn [app].
  - repeat constructor.
  - constructor.
    + apply IH. exact (Forall_inv_tail Ha).
    + apply Forall_app. split; [exact Hy |].
      constructor; [exact (Forall_inv Ha) | constructor].
Qed.

Lemma StronglySorted_rev l :
  StronglySorted (key_le key) l -> StronglySorted (key_ge key) (rev l).
Proof.
  induction 1 as [| y l Hl IH Hy]; cbn [rev]; [constructor |].
  apply StronglySorted_snoc; [exact IH |].
  apply Forall_rev. eapply Forall_impl; [| exact Hy].
  unfold key_le, key_ge. intros; lia.
Qed.

(** Ascending order. *)
Lemma py_sort_ascending l :
  Permutation (py_sort key false l) l /\
  StronglySorted (key_le key) (py_sort key false l) /\
  forall t, filter (has_key key t) (py_sort key false l) = filter (has_key key t) l.
Proof.
  unfold py_sort. split; [apply stable_sort_perm |].
  split; [apply stable_sort_sorted |]. intros t. apply stable_sort_stable.
Qed.

(** Descending order, [reverse=True]: equal keys still keep their first
    order. *)
Lemma py_sort_descending l :
  Permutation (py_sort key true l) l /\
  StronglySorted (key_ge key) (py_sort key true l) /\
  forall t, filter (has_key key t) (py_sort key true l) = filter (has_key key t) l.
Proof.
  unfold py_sort. split; [| split].
  - rewrite <- Permutation_rev, stable_sort_perm. symmetry.
    apply Permutation_rev.
  - apply StronglySorted_rev, stable_sort_sorted.
  - intros t. rewrite filter_rev, stable_sort_stable, filter_rev.
    apply rev_involutive.
Qed.

End Sorting.

(** ** Initiative *)

(** The rows as rolled, in the order of the participants. *)
Lemma initiative_rows_return bonus_val n :
  0 <= n ->
  returns (mapM (fun i =>
                   roll <- roll_single_die 20 ;;
                   let total := roll + bonus_val in
                   ret (i + 1, roll, total))
                (py_range n))
          (fun rows =>
             py_len rows = n /\
             map (fun e : entry => fst (fst e)) rows
             = map (fun i => i + 1) (py_range n) /\
             Forall (fun '(_, roll, total) =>
                       1 <= roll <= 20 /\ total = roll + bonus_val) rows).
Proof.
  intros Hn.
  eapply returns_weaken.
  - apply returns_mapM
      with (P := fun i (e : entry) =>
                   fst (fst e) = i + 1 /\
                   1 <= snd (fst e) <= 20 /\ snd e = snd (fst e) + bonus_val).
    intros i _.
    apply returns_bind with (P := fun v => 1 <= v <= 20);
      [apply roll_single_die_returns; lia |].
    intros roll Hroll. apply returns_ret. cbn. auto.
  - intros rows H. split; [| split].
    + rewrite <- (py_range_length n Hn). unfold py_len. f_equal.
      symmetry. exact (Forall2_length H).
    + induction H as [| i e is' rows' (E & _) _ IH]; cbn [map];
        [reflexivity | now rewrite E, IH].
    + induction H as [| i [[c roll] total] is' rows' (_ & Hr & Ht) _ IH];
        constructor; cbn in *; auto.
Qed.

(** The handler once both arguments are parsed. *)
Lemma roll_initiative_parsed bonus count B N rnd :
  int_arg count 1 = Ret N -> int_arg bonus 0 = Ret B ->
  roll_initiative bonus count rnd
  = try_except
      (if (N <? 1) || (N >? 20) then
         ret (u "❌ Error: Count must be between 1 and 20")
       else if (B <? -10) || (B >? 20) then
         ret (u "❌ Error: Bonus must be between -10 and +20")
       else
         initiatives <- mapM (fun i =>
                                roll <- roll_single_die 20 ;;
                                let total := roll + B in
                                ret (i + 1, roll, total))
                             (py_range N) ;;
         let initiatives := py_sort entry_total true initiatives in
         if N =? 1 then
           first <- lift (getitem initiatives 0) ;;
           let '(_, roll, total) := first in
           ret (u "⚔️ Initiative: " ++ py_str roll ++ u " " ++ bonus_str B
                  ++ u " = **" ++ py_str total ++ u "**")
         else
           ret (py_join nl
                  (u "⚔️ Initiative Order:"
                   :: map (fun '(char_num, roll, total) =>
                             u "Character " ++ py_str char_num ++ u ": "
                               ++ py_str roll ++ u " " ++ bonus_str B
                               ++ u " = **" ++ py_str total ++ u "**")
                          initiatives)))
      (fun e =>
         if is_value_error e then ret (u "❌ Error: Invalid number value")
         else ret (u "❌ Error: " ++ exn_str e))
      rnd.
Proof.
  intros HN HB. unfold roll_initiative, try_except, bind at 1 2.
  now rewrite HN, lift_ret, HB, lift_ret.
Qed.

(** The rows the loop makes: participant [k + 1] gets the face of draw
    number [k]. *)
Lemma initiative_rows_faces bonus_val n r :
  mapM (fun i =>
          roll <- roll_single_die 20 ;;
          let total := roll + bonus_val in
          ret (i + 1, roll, total))
       (py_range n) r
  = (Ret (map (fun k => (Z.of_nat k + 1, face 20 r k, face 20 r k + bonus_val))
              (seq 0 (Z.to_nat n))),
     advance_by (Z.to_nat n) r).
Proof.
  rewrite (mapM_range _ 1
             (fun i r => (i + 1, face 20 r 0, face 20 r 0 + bonus_val)) n r).
  - rewrite Nat.mul_1_r.
    rewrite (map_ext
               (fun j => (Z.of_nat j + 1, face 20 (advance_by (j * 1) r) 0,
                          face 20 (advance_by (j * 1) r) 0 + bonus_val))
               (fun k => (Z.of_nat k + 1, face 20 r k, face 20 r k + bonus_val)));
      [reflexivity |].
    intros j. rewrite face_advance_by.
    now replace (j * 1 + 0)%nat with j by lia.
  - intros i r'.
    now rewrite (bind_ret _ _ _ _ _ (roll_single_die_face 20 r' ltac:(lia))).
Qed.

(** C4.  With a bonus [B] in -10..20 and a count [N] in 1..20,
    [roll_initiative] makes [N] rows in [N] draws: participant [k + 1] gets
    the face of draw number [k] on a d20, in 1..20, and the total face + B.
    It shows the rows sorted by total, highest first, rows of equal total
    in the order of the participants.  A count outside 1..20, or else a
    bonus outside -10..20, gets the range error. *)
Theorem roll_initiative_order :
  forall bonus count B N rnd,
    int_arg count 1 = Ret N -> int_arg bonus 0 = Ret B ->
    (N < 1 \/ 20 < N ->
     run (roll_initiative bonus count) rnd
     = Ret (u "❌ Error: Count must be between 1 and 20")) /\
    (1 <= N <= 20 -> B < -10 \/ 20 < B ->
     run (roll_initiative bonus count) rnd
     = Ret (u "❌ Error: Bonus must be between -10 and +20")) /\
    (1 <= N <= 20 -> -10 <= B <= 20 ->
     exists rows shown : list (Z * Z * Z),
       rows = map (fun k => (Z.of_nat k + 1, face 20 rnd k, face 20 rnd k + B))
                  (seq 0 (Z.to_nat N)) /\
       py_len rows = N /\
       map (fun e : entry => fst (fst e)) rows
       = map (fun i => i + 1) (py_range N) /\
       Forall (fun '(_, roll, total) => 1 <= roll <= 20 /\ total = roll + B)
              rows /\
       snd (roll_initiative bonus count rnd) = advance_by (Z.to_nat N) rnd /\
       shown = py_sort entry_total true rows /\
       Permutation shown rows /\
       StronglySorted (fun a b : Z * Z * Z => snd a >= snd b) shown /\
       (forall t, filter (fun e : Z * Z * Z => snd e =? t) shown
                  = filter (fun e : Z * Z * Z => snd e =? t) rows) /\
       (N = 1 ->
        exists roll,
          rows = [(1, roll, roll + B)] /\
          run (roll_initiative bonus count) rnd
          = Ret (u "⚔️ Initiative: " ++ py_str roll ++ u " " ++ bonus_str B
                   ++ u " = **" ++ py_str (roll + B) ++ u "**")) /\
       (N <> 1 ->
        run (roll_initiative bonus count) rnd
        = Ret (py_join nl
                 (u "⚔️ Initiative Order:"
                  :: map (fun '(char_num, roll, total) =>
                            u "Character " ++ py_str char_num ++ u ": "
                              ++ py_str roll ++ u " " ++ bonus_str B
                              ++ u " = **" ++ py_str total ++ u "**")
                         shown)))).
Proof.
  intros bonus count B N rnd HN HB.
  pose proof (roll_initiative_parsed bonus count B N rnd HN HB) as Hhead.
  split; [| split].
  - intros Hout. unfold run. rewrite Hhead. unfold try_except.
    destruct (Z.ltb_spec N 1); [reflexivity |].
    destruct (Z.gtb_spec N 20); [reflexivity | lia].
  - intros Hin Hout. unfold run. rewrite Hhead. unfold try_except.
    destruct (Z.ltb_spec N 1); [lia |].
    destruct (Z.gtb_spec N 20); [lia |]. cbn [orb].
    destruct (Z.ltb_spec B (-10)); [reflexivity |].
    destruct (Z.gtb_spec B 20); [reflexivity | lia].
  - intros HNin HBin.
    pose proof (initiative_rows_faces B N rnd) as E.
    set (rows := map (fun k => (Z.of_nat k + 1, face 20 rnd k, face 20 rnd k + B))
                     (seq 0 (Z.to_nat N))) in *.
    destruct (initiative_rows_return B N ltac:(lia) rnd)
      as (rows' & r' & E' & Hlen & Hidx & Hrows).
    rewrite E in E'. injection E' as <- _.
    destruct (py_sort_descending entry_total rows) as (Hperm & Hsorted & Hstable).
    assert (Hstate : snd (roll_initiative bonus count rnd)
                     = advance_by (Z.to_nat N) rnd /\
                     ((N = 1 ->
                       exists roll,
                         rows = [(1, roll, roll + B)] /\
                         run (roll_initiative bonus count) rnd
                         = Ret (u "⚔️ Initiative: " ++ py_str roll ++ u " "
                                  ++ bonus_str B ++ u " = **"
                                  ++ py_str (roll + B) ++ u "**")) /\
                      (N <> 1 ->
                       run (roll_initiative bonus count) rnd
                       = Ret (py_join nl
                                (u "⚔️ Initiative Order:"
                                 :: map (fun '(char_num, roll, total) =>
                                           u "Character " ++ py_str char_num
                                             ++ u ": " ++ py_str roll ++ u " "
                                             ++ bonus_str B ++ u " = **"
                                             ++ py_str total ++ u "**")
                                        (py_sort entry_total true rows)))))).
    { unfold run. rewrite Hhead. unfold try_except.
      destruct (Z.ltb_spec N 1); [lia |].
      destruct (Z.gtb_spec N 20); [lia |].
      destruct (Z.ltb_spec B (-10)); [lia |].
      destruct (Z.gtb_spec B 20); [lia |]. cbn [orb].
      rewrite (bind_ret _ _ _ _ _ E). cbv zeta.
      destruct (Z.eqb_spec N 1) as [HN1 | HN1].
      - assert (Hone : rows = [(1, face 20 rnd 0, face 20 rnd 0 + B)])
          by (unfold rows; now rewrite HN1).
        rewrite Hone.
        split; [now rewrite HN1 |].
        split; [| intros Hne; contradiction].
        intros _. exists (face 20 rnd 0). split; reflexivity.
      - split; [reflexivity |].
        split; [intros Heq; contradiction | intros _; reflexivity]. }
    destruct Hstate as (Hsnd & Hone & Hmany).
    exists rows, (py_sort entry_total true rows).
    split; [reflexivity |]. split; [exact Hlen |]. split; [exact Hidx |].
    split; [exact Hrows |]. split; [exact Hsnd |].
    split; [reflexivity |]. split; [exact Hperm |]. split; [exact Hsorted |].
    split; [exact Hstable |]. split; [exact Hone | exact Hmany].
Qed.

(** The theorem at three participants with bonus 5 and the draws 9, 19
    and 9: the dice show 10, 20 and 10, so participant 2 leads and
    participants 1 and 3, both at 15, keep their order. *)
Lemma roll_initiative_order_witness :
  (int_arg (u "3") 1 = Ret 3 /\ int_arg (u "5") 0 = Ret 5) /\
  run (roll_initiative (u "5") (u "3")) (tape_of [9; 19; 9])
  = Ret (u "⚔️ Initiative Order:" ++ nl
           ++ u "Character 2: 20 +5 = **25**" ++ nl
           ++ u "Character 1: 10 +5 = **15**" ++ nl
           ++ u "Character 3: 10 +5 = **15**").
Proof.
  split; [split; reflexivity |].
  destruct (roll_initiative_order (u "5") (u "3") 5 3 (tape_of [9; 19; 9])
              eq_refl eq_refl)
    as (_ & _ & H).
  destruct (H ltac:(lia) ltac:(lia))
    as (rows & shown & -> & _ & _ & _ & _ & -> & _ & _ & _ & _ & Hmany).
  pose proof (Hmany ltac:(discriminate)) as Hrun.
  vm_compute in Hrun. vm_compute. exact Hrun.
Defined.

(** ** Ability scores *)

Lemma py_sum_fold_right l : py_sum l = fold_right Z.add 0 l.
Proof. unfold py_sum. apply fold_symmetric; intros; lia. Qed.

Lemma py_sum_cons x l : py_sum (x :: l) = x + py_sum l.
Proof. now rewrite !py_sum_fold_right. Qed.

Lemma py_sum_perm l l' : Permutation l l' -> py_sum l = py_sum l'.
Proof.
  induction 1; rewrite ?py_sum_cons in *; lia.
Qed.

Lemma py_sum_bounds lo hi l :
  Forall (fun v => lo <= v <= hi) l ->
  lo * py_len l <= py_sum l <= hi * py_len l.
Proof.
  unfold py_len.
  induction 1 as [| x l Hx Hl IH]; [cbn; lia |].
  rewrite py_sum_cons. cbn [List.length]. lia.
Qed.

Lemma standard_stat_returns :
  returns (rolls <- mapM (fun _ => roll_single_die 6) (py_range 4) ;;
           let rolls := py_sort (fun x => x) false rolls in
           let stat := py_sum (skipn 1 rolls) in
           ret stat)
          (fun stat => (exists dice, drops_lowest dice stat) /\ 3 <= stat <= 18).
Proof.
  eapply returns_bind; [apply (roll_many_returns 6 4); lia |].
  intros dice [Hlen Hall]. apply returns_ret. cbv zeta.
  destruct (py_sort_ascending (fun x => x) dice) as (Hperm & Hsorted & _).
  set (sorted := py_sort (fun x => x) false dice) in *.
  assert (Hlen' : List.length sorted = 4%nat).
  { rewrite (Permutation_length Hperm). unfold py_len in Hlen. lia. }
  assert (Hall' : Forall (fun v => 1 <= v <= 6) sorted)
    by (eapply Permutation_Forall; [symmetry; exact Hperm | exact Hall]).
  destruct sorted as [| low rest] eqn:Es; [discriminate Hlen' |].
  cbn [skipn].
  assert (Hsum : py_sum rest = py_sum dice - low).
  { rewrite <- (py_sum_perm _ _ Hperm), py_sum_cons. lia. }
  split.
  - exists dice. split; [unfold py_len in Hlen; lia |].
    split; [exact Hall |].
    exists low. split; [| split; [| exact Hsum]].
    + eapply Permutation_in; [exact Hperm | now left].
    + eapply Permutation_Forall; [exact Hperm |].
      apply StronglySorted_inv in Hsorted. destruct Hsorted as [_ Hlow].
      constructor; [lia |].
      eapply Forall_impl; [| exact Hlow]. unfold key_le. intros; lia.
  - pose proof (py_sum_bounds 1 6 rest (Forall_inv_tail Hall')) as Hb.
    unfold py_len in Hb. cbn [List.length] in Hlen'.
    injection Hlen' as Hlen'. rewrite Hlen' in Hb. lia.
Qed.

Lemma Forall_exists_Forall2 {A B} (Q : A -> B -> Prop) ys :
  Forall (fun y => exists x, Q x y) ys -> exists xs, Forall2 Q xs ys.
Proof.
  induction 1 as [| y ys [x Hx] _ [xs Hxs]].
  - exists []. constructor.
  - exists (x :: xs). now constructor.
Qed.

(** The average as printed: for totals up to 200 the [.1f] rendering of
    the double [total / 6] shows the nearest tenth of the fraction. *)
Lemma average_format total :
  0 <= total <= 200 ->
  format_1f (py_truediv total 6)
  = py_str (average_tenths total / 10) ++ u "."
      ++ py_str (average_tenths total mod 10).
Proof.
  intros H.
  assert (Hall : forallb (fun t =>
                            str_eqb (format_1f (py_truediv t 6))
                                    (py_str (average_tenths t / 10) ++ u "."
                                       ++ py_str (average_tenths t mod 10)))
                         (map Z.of_nat (seq 0 201)) = true)
    by (vm_compute; reflexivity).
  rewrite forallb_forall in Hall.
  specialize (Hall total).
  unfold str_eqb in Hall.
  destruct (list_eq_dec Z.eq_dec _ _) as [E | _] in Hall; [exact E |].
  discriminate Hall.
  apply in_map_iff. exists (Z.to_nat total). split; [lia |].
  apply in_seq. lia.
Qed.

(** Sorting four dice and dropping the first leaves the three highest. *)
Lemma drop_lowest_of_four a b c d :
  py_sum (skipn 1 (py_sort (fun x => x) false [a; b; c; d]))
  = sum_highest_three a b c d.
Proof.
  unfold py_sort, stable_sort, sum_highest_three, py_sum.
  cbn [fold_right insert_by].
  repeat match goal with
         | |- context [?x <=? ?y] => destruct (Z.leb_spec x y)
         | _ => progress cbn [insert_by skipn fold_left]
         end; lia.
Qed.

Lemma drops_lowest_four a b c d :
  1 <= a <= 6 -> 1 <= b <= 6 -> 1 <= c <= 6 -> 1 <= d <= 6 ->
  drops_lowest [a; b; c; d] (sum_highest_three a b c d).
Proof.
  intros Ha Hb Hc Hd. split; [reflexivity |].
  split; [repeat constructor; lia |].
  exists (Z.min (Z.min a b) (Z.min c d)). split; [| split].
  - cbn [In]. lia.
  - repeat constructor; lia.
  - unfold sum_highest_three, py_sum. cbn [fold_left]. lia.
Qed.

(** One score of the standard method, from the state it starts in. *)
Lemma standard_stat_faces r :
  (rolls <- mapM (fun _ => roll_single_die 6) (py_range 4) ;;
   let rolls := py_sort (fun x => x) false rolls in
   let stat := py_sum (skipn 1 rolls) in
   ret stat) r
  = (Ret (sum_highest_three (face 6 r 0) (face 6 r 1) (face 6 r 2) (face 6 r 3)),
     advance_by 4 r).
Proof.
  rewrite (bind_ret _ _ _ _ _ (roll_many_faces 6 4 r ltac:(lia))).
  change (Z.to_nat 4) with 4%nat. cbn [seq map]. cbv zeta. unfold ret.
  now rewrite drop_lowest_of_four.
Qed.

(** C6.  [roll_stats] with method "standard" makes six scores in 24
    draws: score number [j] takes the four draws from [4 * j] on as
    six-sided dice and is the sum of the three highest of them, hence in
    3..18.  It reports the scores in that order with their total and the
    average [total / 6] to one decimal, the tenth nearest to the
    fraction. *)
Theorem roll_stats_standard :
  forall method rnd,
    py_lower (py_strip method) = u "standard" ->
    exists (dice : list (list Z)) (stats : list Z) (total tenths : Z),
      dice = map (fun j => [face 6 rnd (4 * j); face 6 rnd (4 * j + 1);
                            face 6 rnd (4 * j + 2); face 6 rnd (4 * j + 3)])
                 (seq 0 6) /\
      stats = map (fun j => sum_highest_three
                              (face 6 rnd (4 * j)) (face 6 rnd (4 * j + 1))
                              (face 6 rnd (4 * j + 2)) (face 6 rnd (4 * j + 3)))
                  (seq 0 6) /\
      Forall2 drops_lowest dice stats /\
      py_len stats = 6 /\
      Forall (fun s => 3 <= s <= 18) stats /\
      total = py_sum stats /\
      total = fold_right Z.add 0 stats /\
      tenths = average_tenths total /\
      -3 <= 6 * tenths - 10 * total <= 3 /\
      snd (roll_stats method rnd) = advance_by 24 rnd /\
      run (roll_stats method) rnd
      = Ret (u "🎲 D&D Ability Scores (4d6 drop lowest):" ++ nl
               ++ py_join (u ", ") (map py_str stats) ++ nl ++ nl
               ++ u "Total: " ++ py_str total
               ++ u " | Average: " ++ py_str (tenths / 10) ++ u "."
               ++ py_str (tenths mod 10)).
Proof.
  intros method rnd Hm.
  set (four := fun j : nat =>
                 [face 6 rnd (4 * j); face 6 rnd (4 * j + 1);
                  face 6 rnd (4 * j + 2); face 6 rnd (4 * j + 3)]).
  set (score := fun j : nat =>
                  sum_highest_three
                    (face 6 rnd (4 * j)) (face 6 rnd (4 * j + 1))
                    (face 6 rnd (4 * j + 2)) (face 6 rnd (4 * j + 3))).
  set (stats := map score (seq 0 6)).
  assert (E : mapM (fun _ : Z =>
                      rolls <- mapM (fun _ => roll_single_die 6) (py_range 4) ;;
                      let rolls := py_sort (fun x => x) false rolls in
                      let stat := py_sum (skipn 1 rolls) in
                      ret stat)
                   (py_range 6) rnd
              = (Ret stats, advance_by 24 rnd)).
  { rewrite (mapM_range
               (fun _ : Z =>
                  rolls <- mapM (fun _ => roll_single_die 6) (py_range 4) ;;
                  let rolls := py_sort (fun x => x) false rolls in
                  let stat := py_sum (skipn 1 rolls) in
                  ret stat)
               4
               (fun _ r => sum_highest_three (face 6 r 0) (face 6 r 1)
                                             (face 6 r 2) (face 6 r 3))
               6 rnd (fun _ r' => standard_stat_faces r')).
    change (Z.to_nat 6) with 6%nat. unfold stats.
    rewrite (map_ext _ score); [reflexivity |].
    intros j. unfold score. rewrite !face_advance_by.
    now replace (j * 4 + 0)%nat with (4 * j)%nat by lia;
      replace (j * 4 + 1)%nat with (4 * j + 1)%nat by lia;
      replace (j * 4 + 2)%nat with (4 * j + 2)%nat by lia;
      replace (j * 4 + 3)%nat with (4 * j + 3)%nat by lia. }
  assert (Hdice : Forall2 drops_lowest (map four (seq 0 6)) stats).
  { apply Forall2_map_same. intros j _.
    apply drops_lowest_four; apply face_range; lia. }
  assert (Hrange : Forall (fun s => 3 <= s <= 18) stats).
  { apply Forall_forall. intros s Hs. apply in_map_iff in Hs.
    destruct Hs as (j & <- & _). unfold score, sum_highest_three.
    pose proof (face_range 6 rnd (4 * j) ltac:(lia)).
    pose proof (face_range 6 rnd (4 * j + 1) ltac:(lia)).
    pose proof (face_range 6 rnd (4 * j + 2) ltac:(lia)).
    pose proof (face_range 6 rnd (4 * j + 3) ltac:(lia)). lia. }
  assert (Hlen6 : py_len stats = 6) by reflexivity.
  pose proof (py_sum_bounds 3 18 stats Hrange) as Hb. rewrite Hlen6 in Hb.
  assert (Hrun : roll_stats method rnd
                 = (Ret (stats_report (u "4d6 drop lowest") stats),
                    advance_by 24 rnd)).
  { unfold roll_stats, try_except. rewrite Hm. decide_keywords.
    now rewrite (bind_ret _ _ _ _ _ E). }
  exists (map four (seq 0 6)), stats, (py_sum stats),
         (average_tenths (py_sum stats)).
  split; [reflexivity |]. split; [reflexivity |]. split; [exact Hdice |].
  split; [exact Hlen6 |]. split; [exact Hrange |].
  split; [reflexivity |]. split; [apply py_sum_fold_right |].
  split; [reflexivity |].
  split.
  { unfold average_tenths.
    pose proof (Z.div_mod (10 * py_sum stats + 3) 6 ltac:(lia)).
    pose proof (Z.mod_pos_bound (10 * py_sum stats + 3) 6 ltac:(lia)). lia. }
  split; [now rewrite Hrun |].
  unfold run. rewrite Hrun. cbn [fst]. f_equal.
  unfold stats_report. cbv zeta. rewrite average_format by lia.
  eval_literals. cbn [app]. reflexivity.
Qed.

(** The theorem at " Standard " with the draws 0, 1, 2, ... taken modulo 6:
    the dice of the first score show 1, 2, 3 and 4, and its three highest
    add up to 9. *)
Lemma roll_stats_standard_witness :
  py_lower (py_strip (u " Standard ")) = u "standard" /\
  run (roll_stats (u " Standard "))
      (tape_of [0; 1; 2; 3; 4; 5; 0; 1; 2; 3; 4; 5])
  = Ret (u "🎲 D&D Ability Scores (4d6 drop lowest):" ++ nl
           ++ u "9, 13, 15, 3, 3, 3" ++ nl ++ nl
           ++ u "Total: 46 | Average: 7.7").
Proof.
  split; [reflexivity |].
  destruct (roll_stats_standard (u " Standard ")
              (tape_of [0; 1; 2; 3; 4; 5; 0; 1; 2; 3; 4; 5]) eq_refl)
    as (dice & stats & total & tenths & _ & -> & _ & _ & _ & -> & _ & -> & _ & _
        & Hrun).
  vm_compute in Hrun. vm_compute. exact Hrun.
Defined.

(** ** Random choice *)

Lemma py_lstrip_nil s : py_lstrip s = [] -> Forall (fun c => py_isspace c = true) s.
Proof.
  induction s as [| c s IH]; [constructor |]. cbn [py_lstrip].
  destruct (py_isspace c) eqn:E; [| discriminate]. intros H.
  constructor; [exact E | exact (IH H)].
Qed.

Lemma py_lstrip_blank s : Forall (fun c => py_isspace c = true) s -> py_lstrip s = [].
Proof. induction 1 as [| c s Hc _ IH]; cbn [py_lstrip]; [| rewrite Hc]; auto. Qed.

Lemma py_lstrip_snoc s c : py_isspace c = false -> py_lstrip (s ++ [c]) <> [].
Proof.
  intros Hc H. apply py_lstrip_nil in H. apply Forall_app in H.
  destruct H as [_ H]. apply Forall_inv in H. congruence.
Qed.

(** [strip()] yields the empty text exactly on blank text. *)
Lemma py_strip_nil s :
  py_strip s = [] <-> Forall (fun c => py_isspace c = true) s.
Proof.
  unfold py_strip, py_rstrip. split.
  - intros H. apply py_lstrip_nil.
    destruct (py_lstrip s) as [| c rest] eqn:E; [reflexivity |].
    exfalso.
    assert (Hc : py_isspace c = false).
    { destruct s as [| c0 s0]; [discriminate E |]. cbn [py_lstrip] in E.
      destruct (py_isspace c0) eqn:E0.
      - clear E0. revert E. induction s0 as [| c1 s1 IH]; [discriminate |].
        cbn [py_lstrip]. destruct (py_isspace c1) eqn:E1; [exact IH |].
        intros E. now injection E as -> _.
      - now injection E as <- _. }
    apply (f_equal (@rev Z)) in H. rewrite rev_involutive in H.
    cbn [rev] in H. exact (py_lstrip_snoc _ _ Hc H).
  - intros H. rewrite (py_lstrip_blank s H). reflexivity.
Qed.

Lemma py_split_chars sep s p c :
  In p (py_split sep s) -> In c p -> In c s.
Proof.
  revert p. induction s as [| x s IH]; intros p Hp Hc.
  - destruct Hp as [<- | []]. exact Hc.
  - cbn [py_split] in Hp. destruct (x =? sep).
    + destruct Hp as [<- | Hp]; [destruct Hc |]. right. eauto.
    + destruct (py_split sep s) as [| q qs] eqn:E.
      * destruct Hp as [<- | []]. destruct Hc as [<- | []]. now left.
      * destruct Hp as [<- | Hp].
        -- destruct Hc as [<- | Hc]; [now left |]. right.
           apply (IH q); [now left | exact Hc].
        -- right. apply (IH p); [now right | exact Hc].
Qed.

(** The options a text holds: its comma-separated parts that are not
    blank, trimmed. *)
Lemma blank_options_hold_none options :
  py_strip options = [] ->
  filter (fun opt => truthy (py_strip opt)) (py_split 44 options) = [].
Proof.
  intros H. apply py_strip_nil in H. rewrite Forall_forall in H.
  destruct (filter _ _) as [| p ps] eqn:E; [reflexivity |]. exfalso.
  assert (Hin : In p (filter (fun opt => truthy (py_strip opt))
                        (py_split 44 options)))
    by (rewrite E; now left).
  apply filter_In in Hin. destruct Hin as [Hp Ht].
  assert (Hblank : py_strip p = []).
  { apply py_strip_nil, Forall_forall. intros c Hc.
    apply H. exact (py_split_chars _ _ _ _ Hp Hc). }
  rewrite Hblank in Ht. discriminate Ht.
Qed.

Lemma random_choice_accepted options rnd :
  let choices :=
    map py_strip
        (filter (fun opt => truthy (py_strip opt)) (py_split 44 options)) in
  2 <= py_len choices <= 50 ->
  random_choice options rnd
  = (Ret (u "🎯 Random Choice:" ++ nl
            ++ u "Options: " ++ py_join (u ", ") choices ++ nl
            ++ u "Selected: **"
            ++ nth (Z.to_nat (tape rnd (cursor rnd) mod py_len choices))
                   choices []
            ++ u "**"),
     advance rnd).
Proof.
  intros choices Hlen. unfold random_choice.
  destruct (py_strip options) as [| c s] eqn:Es.
  { exfalso. apply blank_options_hold_none in Es.
    unfold choices in Hlen. rewrite Es in Hlen. cbn in Hlen. lia. }
  cbn [truthy negb]. fold choices. unfold try_except.
  destruct (Z.ltb_spec (py_len choices) 2); [lia |].
  destruct (Z.gtb_spec (py_len choices) 50); [lia |].
  unfold bind, choice.
  destruct choices as [| x l] eqn:Ec; [cbn in Hlen; lia |].
  reflexivity.
Qed.

(** The three refusals of [random_choice], and its selection. *)
Lemma random_choice_cases :
  forall options rnd,
  let choices :=
    map py_strip
        (filter (fun opt => truthy (py_strip opt)) (py_split 44 options)) in
  Forall (fun c => c <> []) choices /\
  (py_strip options = [] ->
   run (random_choice options) rnd
   = Ret (u "❌ Error: Please provide comma-separated options (e.g., 'attack, defend, flee')")) /\
  (py_strip options <> [] -> py_len choices < 2 ->
   run (random_choice options) rnd
   = Ret (u "❌ Error: Please provide at least 2 options separated by commas")) /\
  (50 < py_len choices ->
   run (random_choice options) rnd
   = Ret (u "❌ Error: Maximum 50 options allowed")) /\
  (2 <= py_len choices <= 50 ->
   exists selected,
     In selected choices /\
     run (random_choice options) rnd
     = Ret (u "🎯 Random Choice:" ++ nl
              ++ u "Options: " ++ py_join (u ", ") choices ++ nl
              ++ u "Selected: **" ++ selected ++ u "**")).
Proof.
  intros options rnd choices.
  assert (Hempty : py_strip options = [] ->
                   run (random_choice options) rnd
                   = Ret (u "❌ Error: Please provide comma-separated options (e.g., 'attack, defend, flee')")).
  { intros H. unfold run, random_choice. now rewrite H. }
  assert (Hfew : py_strip options <> [] -> py_len choices < 2 ->
                 run (random_choice options) rnd
                 = Ret (u "❌ Error: Please provide at least 2 options separated by commas")).
  { intros Hne Hlen. unfold run, random_choice.
    destruct (py_strip options); [congruence |].
    cbn [truthy negb]. fold choices. unfold try_except.
    destruct (Z.ltb_spec (py_len choices) 2); [reflexivity | lia]. }
  assert (Hmany : 50 < py_len choices ->
                  run (random_choice options) rnd
                  = Ret (u "❌ Error: Maximum 50 options allowed")).
  { intros Hlen. unfold run, random_choice.
    destruct (py_strip options) eqn:Es.
    { apply blank_options_hold_none in Es.
      unfold choices in Hlen. rewrite Es in Hlen. cbn in Hlen. lia. }
    cbn [truthy negb]. fold choices. unfold try_except.
    destruct (Z.ltb_spec (py_len choices) 2); [lia |].
    destruct (Z.gtb_spec (py_len choices) 50); [reflexivity | lia]. }
  split; [| split; [exact Hempty | split; [exact Hfew | split; [exact Hmany |]]]].
  - unfold choices. apply Forall_map, Forall_forall. intros p Hp.
    apply filter_In in Hp. destruct Hp as [_ Hp].
    destruct (py_strip p); [discriminate Hp | discriminate].
  - intros Hlen. unfold run.
    rewrite (random_choice_accepted options rnd Hlen). fold choices.
    eexists. split; [| reflexivity].
    apply nth_In.
    pose proof (Z.mod_pos_bound (tape rnd (cursor rnd)) (py_len choices)).
    unfold py_len in *. lia.
Qed.

(** C8.  [random_choice] answers with an error on an empty or blank
    text, and on a text holding fewer than 2 or more than 50 options
    (its comma-separated parts that are not blank, trimmed); otherwise the
    item it selects is one of the options.  So "a, b, c" selects "a", "b"
    or "c", while "a" and "" get an error. *)
Theorem random_choice_validates :
  (forall options rnd,
      let choices :=
        map py_strip
            (filter (fun opt => truthy (py_strip opt)) (py_split 44 options)) in
      Forall (fun c => c <> []) choices /\
      (py_strip options = [] ->
       run (random_choice options) rnd
       = Ret (u "❌ Error: Please provide comma-separated options (e.g., 'attack, defend, flee')")) /\
      (py_strip options <> [] -> py_len choices < 2 ->
       run (random_choice options) rnd
       = Ret (u "❌ Error: Please provide at least 2 options separated by commas")) /\
      (50 < py_len choices ->
       run (random_choice options) rnd
       = Ret (u "❌ Error: Maximum 50 options allowed")) /\
      (py_len choices < 2 \/ 50 < py_len choices ->
       exists text, run (random_choice options) rnd = Ret text /\
                    startswith (u "❌ Error:") text = true) /\
      (2 <= py_len choices <= 50 ->
       exists selected,
         In selected choices /\
         run (random_choice options) rnd
         = Ret (u "🎯 Random Choice:" ++ nl
                  ++ u "Options: " ++ py_join (u ", ") choices ++ nl
                  ++ u "Selected: **" ++ selected ++ u "**"))) /\
  (forall rnd, exists selected,
      In selected [u "a"; u "b"; u "c"] /\
      run (random_choice (u "a, b, c")) rnd
      = Ret (u "🎯 Random Choice:" ++ nl ++ u "Options: a, b, c" ++ nl
               ++ u "Selected: **" ++ selected ++ u "**")) /\
  (forall rnd, run (random_choice (u "a")) rnd
               = Ret (u "❌ Error: Please provide at least 2 options separated by commas")) /\
  (forall rnd, run (random_choice []) rnd
               = Ret (u "❌ Error: Please provide comma-separated options (e.g., 'attack, defend, flee')")).
Proof.
  pose proof random_choice_cases as Hgen.
  split; [| split; [| split]].
  - intros options rnd choices.
    destruct (Hgen options rnd) as (H0 & H1 & H2 & H3 & H4).
    split; [exact H0 |]. split; [exact H1 |]. split; [exact H2 |].
    split; [exact H3 |]. split; [| exact H4].
    intros [Hfew | Hmany].
    + destruct (list_eq_dec Z.eq_dec (py_strip options) []) as [E | E].
      * eexists. split; [exact (H1 E) | reflexivity].
      * eexists. split; [exact (H2 E Hfew) | reflexivity].
    + eexists. split; [exact (H3 Hmany) | reflexivity].
  - intros rnd.
    destruct (Hgen (u "a, b, c") rnd) as (_ & _ & _ & _ & H4).
    destruct (H4 ltac:(cbn; lia)) as (selected & Hin & Hrun).
    exists selected. split; [exact Hin | exact Hrun].
  - intros rnd.
    destruct (Hgen (u "a") rnd) as (_ & _ & H2 & _).
    apply H2; [discriminate | cbn; lia].
  - intros rnd.
    destruct (Hgen [] rnd) as (_ & H1 & _). now apply H1.
Qed.

(** The theorem at "a, b" and at a blank text. *)
Lemma random_choice_validates_witness :
  (py_strip (u "  ") = [] /\
   run (random_choice (u "  ")) (constant_tape 0)
   = Ret (u "❌ Error: Please provide comma-separated options (e.g., 'attack, defend, flee')")) /\
  exists selected,
    In selected [u "a"; u "b"] /\
    run (random_choice (u "a, b")) (constant_tape 1)
    = Ret (u "🎯 Random Choice:" ++ nl ++ u "Options: a, b" ++ nl
             ++ u "Selected: **" ++ selected ++ u "**").
Proof.
  destruct (proj1 random_choice_validates (u "  ") (constant_tape 0))
    as (_ & H1 & _).
  destruct (proj1 random_choice_validates (u "a, b") (constant_tape 1))
    as (_ & _ & _ & _ & _ & H5).
  split.
  - split; [reflexivity | exact (H1 eq_refl)].
  - apply H5. cbn. lia.
Defined.

Lemma filter_split_length {A} (f : A -> bool) l :
  (List.length (filter f l) + List.length (filter (fun x => negb (f x)) l)
   = List.length l)%nat.
Proof.
  induction l as [| x l IH]; [reflexivity |].
  cbn [filter]. destruct (f x); cbn [negb List.length]; lia.
Qed.

(** C10.  [random_choice] drops the blank parts of the options text and
    nothing else: every other part counts as an option, duplicates
    included, and with 2 to 50 options each position can be selected.
    So "a,a" holds the two options "a" and "a" and is accepted. *)
Theorem random_choice_keeps_duplicates :
  (forall options,
      let parts := py_split 44 options in
      let choices :=
        map py_strip (filter (fun opt => truthy (py_strip opt)) parts) in
      py_len choices
      + py_len (filter (fun opt => negb (truthy (py_strip opt))) parts)
      = py_len parts /\
      (2 <= py_len choices <= 50 ->
       forall i, (i < List.length choices)%nat ->
         exists rnd,
           run (random_choice options) rnd
           = Ret (u "🎯 Random Choice:" ++ nl
                    ++ u "Options: " ++ py_join (u ", ") choices ++ nl
                    ++ u "Selected: **" ++ nth i choices [] ++ u "**"))) /\
  map py_strip
      (filter (fun opt => truthy (py_strip opt)) (py_split 44 (u "a,a")))
  = [u "a"; u "a"] /\
  (forall rnd,
      run (random_choice (u "a,a")) rnd
      = Ret (u "🎯 Random Choice:" ++ nl ++ u "Options: a, a" ++ nl
               ++ u "Selected: **a**")).
Proof.
  split; [| split].
  - intros options parts choices. split.
    + unfold choices, py_len. rewrite length_map, <- Nat2Z.inj_add.
      f_equal. apply filter_split_length.
    + intros Hlen i Hi. exists (constant_tape (Z.of_nat i)).
      unfold run.
      rewrite (random_choice_accepted options (constant_tape (Z.of_nat i)) Hlen).
      fold parts. fold choices. cbn [fst tape cursor constant_tape].
      rewrite Z.mod_small by (unfold py_len; lia).
      now rewrite Nat2Z.id.
  - reflexivity.
  - intros rnd. unfold run.
    rewrite (random_choice_accepted (u "a,a") rnd) by (cbn; lia).
    change (map py_strip
              (filter (fun opt => truthy (py_strip opt))
                 (py_split 44 (u "a,a")))) with [u "a"; u "a"].
    change (py_len [u "a"; u "a"]) with 2.
    pose proof (Z.mod_pos_bound (tape rnd (cursor rnd)) 2 ltac:(lia)) as Hm.
    assert (Hcase : tape rnd (cursor rnd) mod 2 = 0
                    \/ tape rnd (cursor rnd) mod 2 = 1) by lia.
    destruct Hcase as [-> | ->]; reflexivity.
Qed.

(** The theorem at "x, y, x": the second "x" can be selected. *)
Lemma random_choice_keeps_duplicates_witness :
  (2 <= py_len [u "x"; u "y"; u "x"] <= 50 /\ (2 < 3)%nat) /\
  exists rnd,
    run (random_choice (u "x, y, x")) rnd
    = Ret (u "🎯 Random Choice:" ++ nl ++ u "Options: x, y, x" ++ nl
             ++ u "Selected: **x**").
Proof.
  split; [split; [cbn; lia | lia] |].
  destruct (proj1 random_choice_keeps_duplicates (u "x, y, x")) as [_ H].
  exact (H ltac:(cbn; lia) 2%nat ltac:(cbn; lia)).
Defined.

(** ** Every handler answers with a text *)

Lemma contract_accept (accepted : Prop) handler rnd text :
  accepted -> run handler rnd = Ret text -> is_error text = false ->
  exists text,
    run handler rnd = Ret text /\
    (accepted -> is_error text = false) /\
    (~ accepted -> is_error text = true).
Proof. intros Ha Hr He. exists text. intuition. Qed.

Lemma contract_reject (accepted : Prop) handler rnd text :
  ~ accepted -> run handler rnd = Ret text -> is_error text = true ->
  exists text,
    run handler rnd = Ret text /\
    (accepted -> is_error text = false) /\
    (~ accepted -> is_error text = true).
Proof. intros Ha Hr He. exists text. intuition. Qed.

Lemma str_eqb_spec a b : reflect (a = b) (str_eqb a b).
Proof.
  unfold str_eqb. destruct (list_eq_dec Z.eq_dec a b); now constructor.
Qed.

(** [int()] fails with a [ValueError] only. *)
Lemma py_int_raises s e : py_int s = Raise e -> is_value_error e = true.
Proof.
  unfold py_int. intros H.
  repeat match type of H with
         | context [match ?x with _ => _ end] => destruct x
         end;
    try discriminate H; now injection H as <-.
Qed.

Lemma int_arg_raises x d e : int_arg x d = Raise e -> is_value_error e = true.
Proof.
  unfold int_arg. destruct (truthy (py_strip x)); [apply py_int_raises |].
  discriminate.
Qed.

Lemma format_roll_result_not_error rolls total notation :
  is_error (format_roll_result rolls total notation) = false.
Proof. unfold format_roll_result. now destruct (py_len rolls =? 1). Qed.

Lemma roll_dice_contract notation :
  handler_contract
    (exists count sides, parse_dice_notation notation = (Some count, Some sides))
    (roll_dice notation).
Proof.
  intros rnd.
  destruct (parse_dice_notation notation) as [[c |] [s |]] eqn:Hp.
  { destruct (roll_dice_accepted notation c s rnd Hp) as (rolls & _ & _ & Hrun).
    eapply contract_accept; [eauto | exact Hrun |].
    apply format_roll_result_not_error. }
  all: destruct (truthy (py_strip notation)) eqn:Ht;
    (eapply contract_reject;
     [ intros (c' & s' & H); discriminate H
     | unfold run, roll_dice; rewrite Ht, Hp; reflexivity
     | reflexivity ]).
Qed.

Lemma flips_return n :
  0 <= n ->
  returns (mapM (fun _ => choice [] [u "Heads"; u "Tails"]) (py_range n))
          (fun flips => py_len flips = n /\
                        Forall (fun x => x = u "Heads" \/ x = u "Tails") flips).
Proof.
  intros Hn. eapply returns_weaken.
  - apply returns_mapM
      with (P := fun (_ : Z) x => x = u "Heads" \/ x = u "Tails").
    intros x _. apply coin_returns.
  - intros flips H. apply Forall2_const_length in H. destruct H as [Hl Hf].
    split; [| exact Hf].
    rewrite <- (py_range_length n Hn). unfold py_len. now rewrite Hl.
Qed.

Lemma flip_coin_contract count :
  handler_contract (exists n, int_arg count 1 = Ret n /\ 1 <= n <= 100)
                   (flip_coin count).
Proof.
  intros rnd. destruct (int_arg count 1) as [n | e] eqn:E.
  - destruct (Z.ltb_spec n 1) as [Hlo | Hlo];
      [| destruct (Z.gtb_spec n 100) as [Hhi | Hhi]].
    + eapply contract_reject.
      * intros (n' & H & Hr). injection H as <-. lia.
      * unfold run, flip_coin, try_except, bind. rewrite E, lift_ret.
        destruct (Z.ltb_spec n 1); [reflexivity | lia].
      * reflexivity.
    + eapply contract_reject.
      * intros (n' & H & Hr). injection H as <-. lia.
      * unfold run, flip_coin, try_except, bind. rewrite E, lift_ret.
        destruct (Z.ltb_spec n 1); [lia |].
        destruct (Z.gtb_spec n 100); [reflexivity | lia].
      * reflexivity.
    + destruct (flips_return n ltac:(lia) rnd) as (flips & r' & Ef & Hlen & Hall).
      assert (Hstep :
        flip_coin count rnd
        = try_except
            (if n =? 1 then
               result <- lift (getitem flips 0) ;;
               let emoji := if str_eqb result (u "Heads") then u "👑"
                            else u "🪙" in
               ret (emoji ++ u " Coin flip: **" ++ result ++ u "**")
             else
               ret (u "🪙 Flipped " ++ py_str n ++ u " coins:" ++ nl
                      ++ py_join (u ", ") flips ++ nl ++ nl
                      ++ u "Summary: " ++ py_str (py_count (u "Heads") flips)
                      ++ u " Heads, " ++ py_str (py_count (u "Tails") flips)
                      ++ u " Tails"))
            (fun e =>
               if is_value_error e then
                 ret (u "❌ Error: Invalid count value: " ++ count)
               else ret (u "❌ Error: " ++ exn_str e))
            r').
      { unfold flip_coin, try_except, bind at 1. rewrite E, lift_ret.
        destruct (Z.ltb_spec n 1); [lia |].
        destruct (Z.gtb_spec n 100); [lia |]. cbn [orb].
        now rewrite (bind_ret _ _ _ _ _ Ef). }
      destruct (Z.eqb_spec n 1) as [-> | Hn1].
      * destruct flips as [| x [| y flips]]; try (cbn in Hlen; lia).
        apply Forall_inv in Hall.
        destruct Hall as [-> | ->];
          (eapply contract_accept;
           [ exists 1; split; [reflexivity | lia]
           | unfold run; rewrite Hstep; reflexivity
           | reflexivity ]).
      * eapply contract_accept;
          [ exists n; split; [reflexivity | lia]
          | unfold run; rewrite Hstep; reflexivity
          | reflexivity ].
  - eapply contract_reject.
    + intros (n & H & _). discriminate H.
    + unfold run, flip_coin, try_except, bind. rewrite E, lift_raise.
      rewrite (int_arg_raises _ _ _ E). reflexivity.
    + reflexivity.
Qed.

Lemma contract_accept_returns (accepted : Prop) (body : M str) h rnd :
  accepted -> returns body (fun text => is_error text = false) ->
  exists text,
    run (try_except body h) rnd = Ret text /\
    (accepted -> is_error text = false) /\
    (~ accepted -> is_error text = true).
Proof.
  intros Ha Hb.
  destruct (returns_run _ _ rnd (returns_try_except body h _ Hb))
    as (text & Hr & He).
  exists text. intuition.
Qed.

Lemma contract_reject_returns (accepted : Prop) (body : M str) h rnd :
  ~ accepted -> returns body (fun text => is_error text = true) ->
  exists text,
    run (try_except body h) rnd = Ret text /\
    (accepted -> is_error text = false) /\
    (~ accepted -> is_error text = true).
Proof.
  intros Ha Hb.
  destruct (returns_run _ _ rnd (returns_try_except body h _ Hb))
    as (text & Hr & He).
  exists text. intuition.
Qed.

Lemma stats_report_not_error title stats :
  is_error (stats_report title stats) = false.
Proof. reflexivity. Qed.

Lemma stats_return (one : M Z) title :
  returns one (fun _ => True) ->
  returns (stats <- mapM (fun _ : Z => one) (py_range 6) ;;
           ret (stats_report title stats))
          (fun text => is_error text = false).
Proof.
  intros Hone.
  apply returns_bind with (P := fun _ => True).
  - eapply returns_weaken; [| trivial].
    apply returns_mapM with (P := fun _ _ => True). intros _ _. exact Hone.
  - intros stats _. apply returns_ret, stats_report_not_error.
Qed.

Lemma roll_stats_contract method :
  handler_contract
    (In (py_lower (py_strip method))
        [u "standard"; []; u "heroic"; u "straight"])
    (roll_stats method).
Proof.
  intros rnd. unfold roll_stats. cbv zeta.
  set (m := py_lower (py_strip method)).
  destruct (str_eqb_spec m (u "standard")) as [E1 | N1];
    [| destruct (str_eqb_spec m []) as [E2 | N2];
       [| destruct (str_eqb_spec m (u "heroic")) as [E3 | N3];
          [| destruct (str_eqb_spec m (u "straight")) as [E4 | N4]]]];
    cbn [orb]; cbv iota.
  - apply contract_accept_returns; [rewrite E1; now left |].
    apply stats_return.
    eapply returns_weaken; [apply standard_stat_returns | trivial].
  - apply contract_accept_returns; [rewrite E2; right; now left |].
    apply stats_return.
    eapply returns_weaken; [apply standard_stat_returns | trivial].
  - apply contract_accept_returns; [rewrite E3; right; right; now left |].
    apply stats_return.
    apply returns_bind with (P := fun _ => True);
      [eapply returns_weaken; [apply (roll_single_die_returns 6); lia | trivial] |].
    intros a _.
    apply returns_bind with (P := fun _ => True);
      [eapply returns_weaken; [apply (roll_single_die_returns 6); lia | trivial] |].
    intros b _. now apply returns_ret.
  - apply contract_accept_returns; [rewrite E4; right; right; right; now left |].
    apply stats_return.
    apply returns_bind with (P := fun _ => True);
      [eapply returns_weaken; [apply (roll_many_returns 6 3); lia | trivial] |].
    intros rolls _. now apply returns_ret.
  - apply contract_reject_returns.
    + intros [H | [H | [H | [H | []]]]]; congruence.
    + now apply returns_ret.
Qed.

Lemma percentile_roll_contract : handler_contract True percentile_roll.
Proof.
  intros rnd. unfold percentile_roll.
  apply contract_accept_returns; [exact I |].
  apply returns_bind with (P := fun _ => True);
    [eapply returns_weaken; [apply (randint_returns 1 100); lia | trivial] |].
  intros result _. now apply returns_ret.
Qed.

Lemma roll_with_advantage_contract sides advantage_type :
  handler_contract
    ((exists n, int_arg sides 20 = Ret n /\ 2 <= n <= 1000) /\
     In (py_lower (py_strip advantage_type))
        [u "advantage"; u "adv"; u "disadvantage"; u "dis"; u "disadv"])
    (roll_with_advantage sides advantage_type).
Proof.
  intros rnd. destruct (int_arg sides 20) as [n | e] eqn:E.
  - destruct (Z.ltb_spec n 2) as [Hlo | Hlo];
      [| destruct (Z.gtb_spec n 1000) as [Hhi | Hhi]].
    + eapply contract_reject.
      * intros [(n' & H & Hr) _]. injection H as <-. lia.
      * unfold run, roll_with_advantage, try_except, bind.
        rewrite E, lift_ret.
        destruct (Z.ltb_spec n 2); [reflexivity | lia].
      * reflexivity.
    + eapply contract_reject.
      * intros [(n' & H & Hr) _]. injection H as <-. lia.
      * unfold run, roll_with_advantage, try_except, bind.
        rewrite E, lift_ret.
        destruct (Z.ltb_spec n 2); [lia |].
        destruct (Z.gtb_spec n 1000); [reflexivity | lia].
      * reflexivity.
    + assert (Hn : exists n', Ret n = Ret n' /\ 2 <= n' <= 1000)
        by (exists n; split; [reflexivity | lia]).
      unfold run.
      rewrite (roll_with_advantage_rolled sides advantage_type n rnd E)
        by lia.
      cbv zeta.
      set (a := py_lower (py_strip advantage_type)).
      destruct (str_eqb_spec a (u "advantage")) as [E1 | N1];
        [| destruct (str_eqb_spec a (u "adv")) as [E2 | N2];
           [| destruct (str_eqb_spec a (u "disadvantage")) as [E3 | N3];
              [| destruct (str_eqb_spec a (u "dis")) as [E4 | N4];
                 [| destruct (str_eqb_spec a (u "disadv")) as [E5 | N5]]]]];
        cbn [orb fst]; cbv iota;
        (eexists; split; [reflexivity |]; split;
         [ try (intros _; reflexivity)
         | try (intros _; reflexivity) ]).
      * intros Hno. exfalso. apply Hno. split; [exact Hn |]. rewrite E1. now left.
      * intros Hno. exfalso. apply Hno. split; [exact Hn |]. rewrite E2.
        right; now left.
      * intros Hno. exfalso. apply Hno. split; [exact Hn |]. rewrite E3.
        right; right; now left.
      * intros Hno. exfalso. apply Hno. split; [exact Hn |]. rewrite E4.
        right; right; right; now left.
      * intros Hno. exfalso. apply Hno. split; [exact Hn |]. rewrite E5.
        right; right; right; right; now left.
      * intros [_ [H | [H | [H | [H | [H | []]]]]]]; congruence.
  - eapply contract_reject.
    + intros [(n & H & _) _]. discriminate H.
    + unfold run, roll_with_advantage, try_except, bind.
      rewrite E, lift_raise, (int_arg_raises _ _ _ E). reflexivity.
    + reflexivity.
Qed.

Lemma roll_initiative_contract bonus count :
  handler_contract
    (exists n b,
        int_arg count 1 = Ret n /\ int_arg bonus 0 = Ret b /\
        1 <= n <= 20 /\ -10 <= b <= 20)
    (roll_initiative bonus count).
Proof.
  intros rnd.
  destruct (int_arg count 1) as [n | e] eqn:En.
  2: { eapply contract_reject.
       - intros (n & b & H & _). discriminate H.
       - unfold run, roll_initiative, try_except, bind.
         rewrite En, lift_raise, (int_arg_raises _ _ _ En). reflexivity.
       - reflexivity. }
  destruct (int_arg bonus 0) as [b | e] eqn:Eb.
  2: { eapply contract_reject.
       - intros (n' & b & _ & H & _). discriminate H.
       - unfold run, roll_initiative, try_except, bind.
         rewrite En, lift_ret, Eb, lift_raise, (int_arg_raises _ _ _ Eb).
         reflexivity.
       - reflexivity. }
  pose proof (roll_initiative_parsed bonus count b n rnd En Eb) as Hhead.
  destruct (Z.ltb_spec n 1) as [Hn1 | Hn1];
    [| destruct (Z.gtb_spec n 20) as [Hn2 | Hn2];
       [| destruct (Z.ltb_spec b (-10)) as [Hb1 | Hb1];
          [| destruct (Z.gtb_spec b 20) as [Hb2 | Hb2]]]].
  - eapply contract_reject.
    + intros (n' & b' & H & H' & Hr). injection H as <-. lia.
    + unfold run. rewrite Hhead. unfold try_except.
      destruct (Z.ltb_spec n 1); [reflexivity | lia].
    + reflexivity.
  - eapply contract_reject.
    + intros (n' & b' & H & H' & Hr). injection H as <-. lia.
    + unfold run. rewrite Hhead. unfold try_except.
      destruct (Z.ltb_spec n 1); [lia |].
      destruct (Z.gtb_spec n 20); [reflexivity | lia].
    + reflexivity.
  - eapply contract_reject.
    + intros (n' & b' & H & H' & Hr). injection H' as <-. lia.
    + unfold run. rewrite Hhead. unfold try_except.
      destruct (Z.ltb_spec n 1); [lia |].
      destruct (Z.gtb_spec n 20); [lia |].
      destruct (Z.ltb_spec b (-10)); [reflexivity | lia].
    + reflexivity.
  - eapply contract_reject.
    + intros (n' & b' & H & H' & Hr). injection H' as <-. lia.
    + unfold run. rewrite Hhead. unfold try_except.
      destruct (Z.ltb_spec n 1); [lia |].
      destruct (Z.gtb_spec n 20); [lia |].
      destruct (Z.ltb_spec b (-10)); [lia |].
      destruct (Z.gtb_spec b 20); [reflexivity | lia].
    + reflexivity.
  - assert (Hacc : exists n' b',
               Ret n = Ret n' /\ Ret b = Ret b' /\
               1 <= n' <= 20 /\ -10 <= b' <= 20)
      by (exists n, b; repeat split; lia).
    destruct (initiative_rows_return b n ltac:(lia) rnd)
      as (rows & r' & E & Hlen & _ & _).
    unfold run. rewrite Hhead. unfold try_except.
    destruct (Z.ltb_spec n 1); [lia |].
    destruct (Z.gtb_spec n 20); [lia |].
    destruct (Z.ltb_spec b (-10)); [lia |].
    destruct (Z.gtb_spec b 20); [lia |]. cbn [orb].
    rewrite (bind_ret _ _ _ _ _ E). cbv zeta.
    destruct (Z.eqb_spec n 1) as [-> | Hne].
    + destruct rows as [| [[c roll] total] [| e2 rows]];
        try (cbn in Hlen; lia).
      eexists. split; [reflexivity |].
      split; [intros _; reflexivity | intros Hno; contradiction].
    + eexists. split; [reflexivity |].
      split; [| intros Hno; contradiction].
      intros _.
      match goal with
      | |- context [py_join nl (_ :: ?l)] => destruct l
      end; reflexivity.
Qed.

Lemma random_choice_contract options :
  handler_contract
    (2 <= py_len (map py_strip
                      (filter (fun opt => truthy (py_strip opt))
                              (py_split 44 options))) <= 50)
    (random_choice options).
Proof.
  intros rnd.
  destruct (random_choice_cases options rnd) as (_ & H1 & H2 & H3 & H4).
  set (choices := map py_strip
                      (filter (fun opt => truthy (py_strip opt))
                              (py_split 44 options))) in *.
  destruct (Z.ltb_spec (py_len choices) 2) as [Hfew | Hfew];
    [| destruct (Z.ltb_spec 50 (py_len choices)) as [Hmany | Hmany]].
  - destruct (list_eq_dec Z.eq_dec (py_strip options) []) as [E | E].
    + eapply contract_reject; [lia | exact (H1 E) | reflexivity].
    + eapply contract_reject; [lia | exact (H2 E Hfew) | reflexivity].
  - eapply contract_reject; [lia | exact (H3 Hmany) | reflexivity].
  - destruct (H4 ltac:(lia)) as (selected & _ & Hrun).
    eapply contract_accept; [lia | exact Hrun | reflexivity].
Qed.

Lemma loot_returns (quality : Z -> str) level :
  returns (roll <- roll_single_die 100 ;;
           ret (u "💎 Loot Roll (" ++ level ++ u "):" ++ nl
                  ++ u "Roll: " ++ py_str roll ++ nl
                  ++ u "Result: " ++ quality roll))
          (fun text => is_error text = false).
Proof.
  apply returns_bind with (P := fun _ => True);
    [eapply returns_weaken; [apply (roll_single_die_returns 100); lia | trivial] |].
  intros roll _. now apply returns_ret.
Qed.

Lemma roll_loot_contract rarity :
  handler_contract
    (In (py_lower (py_strip rarity))
        [u "common"; []; u "uncommon"; u "rare"; u "legendary"])
    (roll_loot rarity).
Proof.
  intros rnd. unfold roll_loot. cbv zeta.
  set (m := py_lower (py_strip rarity)).
  destruct (str_eqb_spec m (u "common")) as [E1 | N1];
    [| destruct (str_eqb_spec m []) as [E2 | N2];
       [| destruct (str_eqb_spec m (u "uncommon")) as [E3 | N3];
          [| destruct (str_eqb_spec m (u "rare")) as [E4 | N4];
             [| destruct (str_eqb_spec m (u "legendary")) as [E5 | N5]]]]];
    cbn [orb]; cbv iota.
  - apply contract_accept_returns; [rewrite E1; now left |].
    exact (loot_returns _ _).
  - apply contract_accept_returns; [rewrite E2; right; now left |].
    exact (loot_returns _ _).
  - apply contract_accept_returns; [rewrite E3; right; right; now left |].
    exact (loot_returns _ _).
  - apply contract_accept_returns;
      [rewrite E4; right; right; right; now left |].
    exact (loot_returns _ _).
  - apply contract_accept_returns;
      [rewrite E5; right; right; right; right; now left |].
    exact (loot_returns _ _).
  - apply contract_reject_returns.
    + intros [H | [H | [H | [H | [H | []]]]]]; congruence.
    + now apply returns_ret.
Qed.

(** C1.  Each of the eight handlers, on any text arguments and any state
    of the generator, returns a text and raises nothing; whenever it
    turns its arguments down (notation refused by the parser, number
    unreadable or out of range, unknown method, type or rarity, too few
    or too many options) the text begins with "❌ Error:", and when it
    accepts them the text does not. *)
Theorem handlers_never_raise :
  (forall notation,
      handler_contract
        (exists count sides,
            parse_dice_notation notation = (Some count, Some sides))
        (roll_dice notation)) /\
  (forall count,
      handler_contract (exists n, int_arg count 1 = Ret n /\ 1 <= n <= 100)
                       (flip_coin count)) /\
  (forall method,
      handler_contract
        (In (py_lower (py_strip method))
            [u "standard"; []; u "heroic"; u "straight"])
        (roll_stats method)) /\
  (forall sides advantage_type,
      handler_contract
        ((exists n, int_arg sides 20 = Ret n /\ 2 <= n <= 1000) /\
         In (py_lower (py_strip advantage_type))
            [u "advantage"; u "adv"; u "disadvantage"; u "dis"; u "disadv"])
        (roll_with_advantage sides advantage_type)) /\
  handler_contract True percentile_roll /\
  (forall bonus count,
      handler_contract
        (exists n b,
            int_arg count 1 = Ret n /\ int_arg bonus 0 = Ret b /\
            1 <= n <= 20 /\ -10 <= b <= 20)
        (roll_initiative bonus count)) /\
  (forall options,
      handler_contract
        (2 <= py_len (map py_strip
                          (filter (fun opt => truthy (py_strip opt))
                                  (py_split 44 options))) <= 50)
        (random_choice options)) /\
  (forall rarity,
      handler_contract
        (In (py_lower (py_strip rarity))
            [u "common"; []; u "uncommon"; u "rare"; u "legendary"])
        (roll_loot rarity)).
Proof.
  repeat split.
  - exact roll_dice_contract.
  - exact flip_coin_contract.
  - exact roll_stats_contract.
  - exact roll_with_advantage_contract.
  - exact percentile_roll_contract.
  - exact roll_initiative_contract.
  - exact random_choice_contract.
  - exact roll_loot_contract.
Qed.

(** The theorem at a count that is no number: the handler declines with
    an error text. *)
Lemma handlers_never_raise_witness :
  exists text,
    run (flip_coin (u "many")) (constant_tape 0) = Ret text /\
    is_error text = true.
Proof.
  destruct (proj1 (proj2 handlers_never_raise) (u "many") (constant_tape 0))
    as (text & Hrun & _ & Herr).
  exists text. split; [exact Hrun |].
  apply Herr. intros (n & H & _). discriminate H.
Defined.

(* ================================================================== *)
(** * Part V: edges, defaults and the use of the generator *)
(* ================================================================== *)

(** ** Counting draws *)

Lemma draws_ret {A} (a : A) (P : A -> Prop) : P a -> draws (ret a) 0 P.
Proof. intros H r. exists a. now rewrite advance_by_0. Qed.

Lemma draws_bind {A B} (m : M A) (f : A -> M B) j k P Q :
  draws m j P -> (forall a, P a -> draws (f a) k Q) ->
  draws (bind m f) (j + k) Q.
Proof.
  intros Hm Hf r.
  destruct (Hm r) as (a & E1 & Pa).
  destruct (Hf a Pa (advance_by j r)) as (b & E2 & Qb).
  exists b. split; [| exact Qb].
  now rewrite (bind_ret _ _ _ _ _ E1), E2, advance_by_add.
Qed.

Lemma draws_weaken {A} (m : M A) k (P Q : A -> Prop) :
  draws m k P -> (forall a, P a -> Q a) -> draws m k Q.
Proof.
  intros Hm HPQ r. destruct (Hm r) as (a & E & Pa). exists a. auto.
Qed.

Lemma draws_try_except {A} (body : M A) h k P :
  draws body k P -> draws (try_except body h) k P.
Proof.
  intros Hb r. destruct (Hb r) as (a & E & Pa).
  exists a. split; [| exact Pa]. now apply try_except_ret.
Qed.

Lemma draws_mapM {A B} (f : A -> M B) k (P : A -> B -> Prop) xs :
  (forall x, In x xs -> draws (f x) k (P x)) ->
  draws (mapM f xs) (List.length xs * k) (Forall2 P xs).
Proof.
  induction xs as [| x xs IH]; intros Hf; cbn [mapM List.length Nat.mul].
  - apply draws_ret. constructor.
  - apply draws_bind with (P := P x); [apply Hf; now left |].
    intros y Py.
    replace (List.length xs * k)%nat with (List.length xs * k + 0)%nat by lia.
    apply draws_bind with (P := Forall2 P xs).
    + apply IH. intros x' Hx'. apply Hf. now right.
    + intros ys Pys. apply draws_ret. now constructor.
Qed.

Lemma draws_randint a b :
  a <= b -> draws (randint a b) 1 (fun v => a <= v <= b).
Proof.
  intros Hab r. rewrite (randint_eq a b r Hab).
  eexists. split; [reflexivity |].
  pose proof (Z.mod_pos_bound (tape r (cursor r)) (b - a + 1)). lia.
Qed.

Lemma draws_die sides :
  1 <= sides -> draws (roll_single_die sides) 1 (fun v => 1 <= v <= sides).
Proof. apply draws_randint. Qed.


(** ** Percentile rolls *)

(** X1.  [percentile_roll] draws once, a value [r] of 1..100, shows it and
    names its band: up to 5 a critical success, 6 to 25 a success, 26 to 75
    moderate, 76 to 95 a failure, above 95 a critical failure; every value
    of 1..100 can be rolled. *)
Theorem percentile_roll_bands :
  (forall rnd, exists r quality,
      run (randint 1 100) rnd = Ret r /\ 1 <= r <= 100 /\
      percentile_roll rnd
      = (Ret (u "🎲 Percentile Roll (d100): **" ++ py_str r ++ u "**" ++ nl
                ++ quality),
         advance rnd) /\
      (r <= 5 -> quality = u "Critical Success! 🌟") /\
      (6 <= r <= 25 -> quality = u "Success ✅") /\
      (26 <= r <= 75 -> quality = u "Moderate 📊") /\
      (76 <= r <= 95 -> quality = u "Failure ❌") /\
      (96 <= r -> quality = u "Critical Failure! 💥")) /\
  (forall r, 1 <= r <= 100 -> exists rnd, run (randint 1 100) rnd = Ret r).
Proof.
  split.
  - intros rnd.
    pose proof (randint_eq 1 100 rnd ltac:(lia)) as E.
    set (r := 1 + tape rnd (cursor rnd) mod (100 - 1 + 1)) in *.
    assert (Hr : 1 <= r <= 100).
    { pose proof (Z.mod_pos_bound (tape rnd (cursor rnd)) (100 - 1 + 1)). lia. }
    exists r, (if r <=? 5 then u "Critical Success! 🌟"
               else if r <=? 25 then u "Success ✅"
               else if r <=? 75 then u "Moderate 📊"
               else if r <=? 95 then u "Failure ❌"
               else u "Critical Failure! 💥").
    split; [unfold run; now rewrite E |]. split; [exact Hr |].
    split.
    { unfold percentile_roll, try_except.
      now rewrite (bind_ret _ _ _ _ _ E). }
    repeat split; intros H; now settle_tests.
  - intros r Hr. exists (constant_tape (r - 1)). now apply randint_onto.
Qed.

(** The theorem at the roll 96. *)
Lemma percentile_roll_bands_witness :
  (1 <= 96 <= 100) /\
  exists rnd, run (randint 1 100) rnd = Ret 96.
Proof.
  split; [lia |].
  exact (proj2 percentile_roll_bands 96 ltac:(lia)).
Defined.

(** ** Loot: the other tiers, the default and the refusal *)

(** Decides the comparisons of two known words. *)
Ltac decide_words :=
  repeat match goal with
         | |- context [str_eqb ?a ?b] =>
             let v := eval vm_compute in (str_eqb a b) in
             lazymatch v with
             | true => change (str_eqb a b) with true
             | false => change (str_eqb a b) with false
             end
         end;
  cbn [orb andb negb]; cbv iota.

(** X2.  With the d100 roll [r], [roll_loot] names for "common" a poor item
    up to 60, an average one up to 90 and a good one above; for "uncommon"
    average up to 50, good up to 85, exceptional above; for "rare" good up
    to 40, exceptional up to 80, masterwork above.  The rarity is read
    without its case and outer blanks and shown capitalized; a blank rarity
    is rolled as common and shown with an empty name.  One value is
    drawn. *)
Theorem roll_loot_lower_tiers :
  forall rarity rnd r,
    run (roll_single_die 100) rnd = Ret r ->
    let level := py_lower (py_strip rarity) in
    let text (name quality : str) :=
      (Ret (u "💎 Loot Roll (" ++ name ++ u "):" ++ nl
              ++ u "Roll: " ++ py_str r ++ nl ++ u "Result: " ++ quality),
       advance rnd) in
    (level = u "common" ->
     roll_loot rarity rnd
     = text (u "Common")
            (if r <=? 60 then u "Poor quality item"
             else if r <=? 90 then u "Average quality item"
             else u "Good quality item")) /\
    (level = [] ->
     roll_loot rarity rnd
     = text []
            (if r <=? 60 then u "Poor quality item"
             else if r <=? 90 then u "Average quality item"
             else u "Good quality item")) /\
    (level = u "uncommon" ->
     roll_loot rarity rnd
     = text (u "Uncommon")
            (if r <=? 50 then u "Average quality item"
             else if r <=? 85 then u "Good quality item"
             else u "Exceptional item! ✨")) /\
    (level = u "rare" ->
     roll_loot rarity rnd
     = text (u "Rare")
            (if r <=? 40 then u "Good quality item"
             else if r <=? 80 then u "Exceptional item! ✨"
             else u "Masterwork item! ⭐")).
Proof.
  intros rarity rnd r Hr level text.
  assert (E : roll_single_die 100 rnd = (Ret r, advance rnd)).
  { unfold run in Hr. rewrite roll_single_die_eq in * by lia.
    cbn [fst] in Hr. now rewrite Hr. }
  unfold text. repeat split; intros Hl; unfold level in Hl;
    unfold roll_loot, try_except; rewrite Hl; decide_words;
    rewrite (bind_ret _ _ _ _ _ E); reflexivity.
Qed.

(** The theorem at " RARE " and the roll 81. *)
Lemma roll_loot_lower_tiers_witness :
  run (roll_single_die 100) (constant_tape 80) = Ret 81 /\
  roll_loot (u " RARE ") (constant_tape 80)
  = (Ret (u "💎 Loot Roll (Rare):" ++ nl ++ u "Roll: 81" ++ nl
            ++ u "Result: Masterwork item! ⭐"),
     advance (constant_tape 80)).
Proof.
  split; [reflexivity |].
  exact (proj2 (proj2 (proj2
           (roll_loot_lower_tiers (u " RARE ") (constant_tape 80) 81 eq_refl)))
           eq_refl).
Defined.

(** X3.  A rarity that is none of "common", "uncommon", "rare", "legendary"
    or blank, read without its case and outer blanks, gets the rarity
    error, and the generator is left as it was. *)
Theorem roll_loot_refuses_unknown :
  forall rarity rnd,
    ~ In (py_lower (py_strip rarity))
         [u "common"; []; u "uncommon"; u "rare"; u "legendary"] ->
    roll_loot rarity rnd
    = (Ret (u "❌ Error: Rarity must be 'common', 'uncommon', 'rare', or 'legendary'"),
       rnd).
Proof.
  intros rarity rnd Hno. unfold roll_loot, try_except. cbv zeta.
  set (m := py_lower (py_strip rarity)) in *.
  destruct (str_eqb_spec m (u "common")) as [E | _];
    [exfalso; apply Hno; rewrite E; now left |].
  destruct (str_eqb_spec m []) as [E | _];
    [exfalso; apply Hno; rewrite E; right; now left |].
  destruct (str_eqb_spec m (u "uncommon")) as [E | _];
    [exfalso; apply Hno; rewrite E; right; right; now left |].
  destruct (str_eqb_spec m (u "rare")) as [E | _];
    [exfalso; apply Hno; rewrite E; right; right; right; now left |].
  destruct (str_eqb_spec m (u "legendary")) as [E | _];
    [exfalso; apply Hno; rewrite E; right; right; right; right; now left |].
  reflexivity.
Qed.

(** The theorem at "epic". *)
Lemma roll_loot_refuses_unknown_witness :
  roll_loot (u "epic") (constant_tape 3)
  = (Ret (u "❌ Error: Rarity must be 'common', 'uncommon', 'rare', or 'legendary'"),
     constant_tape 3).
Proof.
  apply roll_loot_refuses_unknown.
  intros [H | [H | [H | [H | [H | []]]]]]; discriminate H.
Defined.

(** ** Ability scores: the other methods, the default and the refusal *)

Lemma stats_report_eq title stats :
  0 <= py_sum stats <= 200 ->
  stats_report title stats
  = u "🎲 D&D Ability Scores (" ++ title ++ u "):" ++ nl
      ++ py_join (u ", ") (map py_str stats) ++ nl ++ nl
      ++ u "Total: " ++ py_str (py_sum stats)
      ++ u " | Average: " ++ py_str (average_tenths (py_sum stats) / 10)
      ++ u "." ++ py_str (average_tenths (py_sum stats) mod 10).
Proof.
  intros H. unfold stats_report. cbv zeta. now rewrite average_format by lia.
Qed.

(** Six scores of one method, each made by [one] in [k] draws. *)
Lemma six_scores_draw (one : M Z) k (P : Z -> Prop) :
  draws one k P ->
  draws (mapM (fun _ : Z => one) (py_range 6)) (6 * k)
        (fun stats => py_len stats = 6 /\ Forall P stats).
Proof.
  intros Hone. eapply draws_weaken.
  - apply (draws_mapM (fun _ : Z => one) k (fun _ s => P s) (py_range 6)).
    intros _ _. exact Hone.
  - intros stats H. apply Forall2_const_length in H. destruct H as [Hl Hf].
    split; [| exact Hf]. unfold py_len. now rewrite Hl.
Qed.

(** One score of the heroic method, from the state it starts in. *)
Lemma heroic_stat_faces r :
  (a <- roll_single_die 6 ;; b <- roll_single_die 6 ;; ret (a + b + 6)) r
  = (Ret (face 6 r 0 + face 6 r 1 + 6), advance_by 2 r).
Proof.
  rewrite (bind_ret _ _ _ _ _ (roll_single_die_face 6 r ltac:(lia))).
  rewrite (bind_ret _ _ _ _ _
             (roll_single_die_face 6 (advance_by 1 r) ltac:(lia))).
  reflexivity.
Qed.

(** X4.  [roll_stats] with method "heroic" makes six scores in twelve
    draws: score number [j] takes the draws [2 * j] and [2 * j + 1] as
    six-sided dice and is their sum plus 6, hence in 8..18.  It reports
    the scores in that order under the title "2d6+6" with their total and
    the average to one decimal. *)
Theorem roll_stats_heroic :
  forall method rnd,
    py_lower (py_strip method) = u "heroic" ->
    exists (dice : list (Z * Z)) (stats : list Z),
      dice = map (fun j => (face 6 rnd (2 * j), face 6 rnd (2 * j + 1)))
                 (seq 0 6) /\
      stats = map (fun j => face 6 rnd (2 * j) + face 6 rnd (2 * j + 1) + 6)
                  (seq 0 6) /\
      Forall2 (fun d s => 1 <= fst d <= 6 /\ 1 <= snd d <= 6 /\
                          s = fst d + snd d + 6) dice stats /\
      py_len stats = 6 /\
      Forall (fun s => 8 <= s <= 18) stats /\
      roll_stats method rnd
      = (Ret (u "🎲 D&D Ability Scores (2d6+6):" ++ nl
                ++ py_join (u ", ") (map py_str stats) ++ nl ++ nl
                ++ u "Total: " ++ py_str (fold_right Z.add 0 stats)
                ++ u " | Average: "
                ++ py_str (average_tenths (fold_right Z.add 0 stats) / 10)
                ++ u "."
                ++ py_str (average_tenths (fold_right Z.add 0 stats) mod 10)),
         advance_by 12 rnd).
Proof.
  intros method rnd Hm.
  set (pair := fun j : nat => (face 6 rnd (2 * j), face 6 rnd (2 * j + 1))).
  set (score := fun j : nat => face 6 rnd (2 * j) + face 6 rnd (2 * j + 1) + 6).
  set (stats := map score (seq 0 6)).
  assert (E : mapM (fun _ : Z =>
                      a <- roll_single_die 6 ;; b <- roll_single_die 6 ;;
                      ret (a + b + 6))
                   (py_range 6) rnd
              = (Ret stats, advance_by 12 rnd)).
  { rewrite (mapM_range
               (fun _ : Z =>
                  a <- roll_single_die 6 ;; b <- roll_single_die 6 ;;
                  ret (a + b + 6))
               2 (fun _ r => face 6 r 0 + face 6 r 1 + 6)
               6 rnd (fun _ r' => heroic_stat_faces r')).
    change (Z.to_nat 6) with 6%nat. unfold stats.
    rewrite (map_ext _ score); [reflexivity |].
    intros j. unfold score. rewrite !face_advance_by.
    now replace (j * 2 + 0)%nat with (2 * j)%nat by lia;
      replace (j * 2 + 1)%nat with (2 * j + 1)%nat by lia. }
  assert (Hrange : Forall (fun s => 8 <= s <= 18) stats).
  { apply Forall_forall. intros s Hs. apply in_map_iff in Hs.
    destruct Hs as (j & <- & _). unfold score.
    pose proof (face_range 6 rnd (2 * j) ltac:(lia)).
    pose proof (face_range 6 rnd (2 * j + 1) ltac:(lia)). lia. }
  assert (Hlen : py_len stats = 6) by reflexivity.
  pose proof (py_sum_bounds 8 18 stats Hrange) as Hb. rewrite Hlen in Hb.
  exists (map pair (seq 0 6)), stats.
  split; [reflexivity |]. split; [reflexivity |].
  split.
  { apply Forall2_map_same. intros j _. unfold pair, score. cbn [fst snd].
    pose proof (face_range 6 rnd (2 * j) ltac:(lia)).
    pose proof (face_range 6 rnd (2 * j + 1) ltac:(lia)). auto. }
  split; [exact Hlen |]. split; [exact Hrange |].
  rewrite <- py_sum_fold_right.
  unfold roll_stats, try_except. rewrite Hm. decide_words.
  rewrite (bind_ret _ _ _ _ _ E). unfold ret.
  rewrite stats_report_eq by lia. eval_literals. cbn [app]. reflexivity.
Qed.

(** The theorem at "Heroic" with every draw 4: each die shows 5 and each
    score is 16. *)
Lemma roll_stats_heroic_witness :
  py_lower (py_strip (u "Heroic")) = u "heroic" /\
  roll_stats (u "Heroic") (constant_tape 4)
  = (Ret (u "🎲 D&D Ability Scores (2d6+6):" ++ nl
            ++ u "16, 16, 16, 16, 16, 16" ++ nl ++ nl
            ++ u "Total: 96 | Average: 16.0"),
     advance_by 12 (constant_tape 4)).
Proof.
  split; [reflexivity |].
  destruct (roll_stats_heroic (u "Heroic") (constant_tape 4) eq_refl)
    as (dice & stats & _ & -> & _ & _ & _ & Hrun).
  rewrite Hrun. vm_compute. reflexivity.
Defined.

(** One score of the straight method, from the state it starts in. *)
Lemma straight_stat_faces r :
  (rolls <- mapM (fun _ => roll_single_die 6) (py_range 3) ;;
   ret (py_sum rolls)) r
  = (Ret (face 6 r 0 + face 6 r 1 + face 6 r 2), advance_by 3 r).
Proof.
  rewrite (bind_ret _ _ _ _ _ (roll_many_faces 6 3 r ltac:(lia))).
  change (Z.to_nat 3) with 3%nat. cbn [seq map]. unfold ret, py_sum.
  cbn [fold_left]. now rewrite Z.add_0_l.
Qed.

(** X5.  [roll_stats] with method "straight" makes six scores in eighteen
    draws: score number [j] takes the three draws from [3 * j] on as
    six-sided dice and is their sum, hence in 3..18.  It reports the
    scores in that order under the title "3d6" with their total and the
    average to one decimal. *)
Theorem roll_stats_straight :
  forall method rnd,
    py_lower (py_strip method) = u "straight" ->
    exists (dice : list (list Z)) (stats : list Z),
      dice = map (fun j => [face 6 rnd (3 * j); face 6 rnd (3 * j + 1);
                            face 6 rnd (3 * j + 2)])
                 (seq 0 6) /\
      stats = map (fun j => face 6 rnd (3 * j) + face 6 rnd (3 * j + 1)
                            + face 6 rnd (3 * j + 2))
                  (seq 0 6) /\
      Forall2 (fun d s => py_len d = 3 /\ Forall (fun v => 1 <= v <= 6) d /\
                          s = py_sum d) dice stats /\
      py_len stats = 6 /\
      Forall (fun s => 3 <= s <= 18) stats /\
      roll_stats method rnd
      = (Ret (u "🎲 D&D Ability Scores (3d6):" ++ nl
                ++ py_join (u ", ") (map py_str stats) ++ nl ++ nl
                ++ u "Total: " ++ py_str (fold_right Z.add 0 stats)
                ++ u " | Average: "
                ++ py_str (average_tenths (fold_right Z.add 0 stats) / 10)
                ++ u "."
                ++ py_str (average_tenths (fold_right Z.add 0 stats) mod 10)),
         advance_by 18 rnd).
Proof.
  intros method rnd Hm.
  set (three := fun j : nat =>
                  [face 6 rnd (3 * j); face 6 rnd (3 * j + 1);
                   face 6 rnd (3 * j + 2)]).
  set (score := fun j : nat =>
                  face 6 rnd (3 * j) + face 6 rnd (3 * j + 1)
                  + face 6 rnd (3 * j + 2)).
  set (stats := map score (seq 0 6)).
  assert (E : mapM (fun _ : Z =>
                      rolls <- mapM (fun _ => roll_single_die 6) (py_range 3) ;;
                      ret (py_sum rolls))
                   (py_range 6) rnd
              = (Ret stats, advance_by 18 rnd)).
  { rewrite (mapM_range
               (fun _ : Z =>
                  rolls <- mapM (fun _ => roll_single_die 6) (py_range 3) ;;
                  ret (py_sum rolls))
               3 (fun _ r => face 6 r 0 + face 6 r 1 + face 6 r 2)
               6 rnd (fun _ r' => straight_stat_faces r')).
    change (Z.to_nat 6) with 6%nat. unfold stats.
    rewrite (map_ext _ score); [reflexivity |].
    intros j. unfold score. rewrite !face_advance_by.
    now replace (j * 3 + 0)%nat with (3 * j)%nat by lia;
      replace (j * 3 + 1)%nat with (3 * j + 1)%nat by lia;
      replace (j * 3 + 2)%nat with (3 * j + 2)%nat by lia. }
  assert (Hrange : Forall (fun s => 3 <= s <= 18) stats).
  { apply Forall_forall. intros s Hs. apply in_map_iff in Hs.
    destruct Hs as (j & <- & _). unfold score.
    pose proof (face_range 6 rnd (3 * j) ltac:(lia)).
    pose proof (face_range 6 rnd (3 * j + 1) ltac:(lia)).
    pose proof (face_range 6 rnd (3 * j + 2) ltac:(lia)). lia. }
  assert (Hlen : py_len stats = 6) by reflexivity.
  pose proof (py_sum_bounds 3 18 stats Hrange) as Hb. rewrite Hlen in Hb.
  exists (map three (seq 0 6)), stats.
  split; [reflexivity |]. split; [reflexivity |].
  split.
  { apply Forall2_map_same. intros j _. unfold three, score.
    split; [reflexivity |].
    split; [repeat constructor; apply face_range; lia |].
    unfold py_sum. cbn [fold_left]. lia. }
  split; [exact Hlen |]. split; [exact Hrange |].
  rewrite <- py_sum_fold_right.
  unfold roll_stats, try_except. rewrite Hm. decide_words.
  rewrite (bind_ret _ _ _ _ _ E). unfold ret.
  rewrite stats_report_eq by lia. eval_literals. cbn [app]. reflexivity.
Qed.

(** The theorem at " straight" with the draws 0, 1, 2, then zeros: the
    first score adds 1, 2 and 3, the others three ones. *)
Lemma roll_stats_straight_witness :
  py_lower (py_strip (u " straight")) = u "straight" /\
  roll_stats (u " straight") (tape_of [0; 1; 2])
  = (Ret (u "🎲 D&D Ability Scores (3d6):" ++ nl
            ++ u "6, 3, 3, 3, 3, 3" ++ nl ++ nl
            ++ u "Total: 21 | Average: 3.5"),
     advance_by 18 (tape_of [0; 1; 2])).
Proof.
  split; [reflexivity |].
  destruct (roll_stats_straight (u " straight") (tape_of [0; 1; 2]) eq_refl)
    as (dice & stats & _ & -> & _ & _ & _ & Hrun).
  rewrite Hrun. vm_compute. reflexivity.
Defined.

(** X6.  A blank method is the standard method: [roll_stats] answers it
    as it answers "standard", with the same draws. *)
Theorem roll_stats_blank_is_standard :
  forall method rnd,
    py_strip method = [] ->
    roll_stats method rnd = roll_stats (u "standard") rnd.
Proof.
  intros method rnd H. unfold roll_stats. rewrite H.
  change (py_lower []) with (@nil Z).
  change (py_lower (py_strip (u "standard"))) with (u "standard").
  decide_words. reflexivity.
Qed.

(** The theorem at a method of blanks. *)
Lemma roll_stats_blank_is_standard_witness :
  py_strip (u "   ") = [] /\
  roll_stats (u "   ") (constant_tape 2)
  = roll_stats (u "standard") (constant_tape 2).
Proof.
  split; [reflexivity |].
  now apply roll_stats_blank_is_standard.
Defined.

(** X7.  A method that is none of "standard", "heroic", "straight" or
    blank, read without its case and outer blanks, gets the method error,
    and the generator is left as it was. *)
Theorem roll_stats_refuses_unknown :
  forall method rnd,
    ~ In (py_lower (py_strip method))
         [u "standard"; []; u "heroic"; u "straight"] ->
    roll_stats method rnd
    = (Ret (u "❌ Error: Invalid method. Use 'standard', 'heroic', or 'straight'"),
       rnd).
Proof.
  intros method rnd Hno. unfold roll_stats, try_except. cbv zeta.
  set (m := py_lower (py_strip method)) in *.
  destruct (str_eqb_spec m (u "standard")) as [E | _];
    [exfalso; apply Hno; rewrite E; now left |].
  destruct (str_eqb_spec m []) as [E | _];
    [exfalso; apply Hno; rewrite E; right; now left |].
  destruct (str_eqb_spec m (u "heroic")) as [E | _];
    [exfalso; apply Hno; rewrite E; right; right; now left |].
  destruct (str_eqb_spec m (u "straight")) as [E | _];
    [exfalso; apply Hno; rewrite E; right; right; right; now left |].
  reflexivity.
Qed.

(** The theorem at "3d6". *)
Lemma roll_stats_refuses_unknown_witness :
  roll_stats (u "3d6") (constant_tape 3)
  = (Ret (u "❌ Error: Invalid method. Use 'standard', 'heroic', or 'straight'"),
     constant_tape 3).
Proof.
  apply roll_stats_refuses_unknown.
  intros [H | [H | [H | [H | []]]]]; discriminate H.
Defined.

(** ** Coin flips: several coins, the default and the refusals *)





(** One flip: the coin the draw picks, with its emoji. *)
Lemma flip_coin_one count rnd :
  int_arg count 1 = Ret 1 ->
  flip_coin count rnd
  = (let result := nth (Z.to_nat (tape rnd (cursor rnd) mod 2))
                       [u "Heads"; u "Tails"] [] in
     (Ret ((if str_eqb result (u "Heads") then u "👑" else u "🪙")
             ++ u " Coin flip: **" ++ result ++ u "**"),
      advance rnd)).
Proof.
  intros H. unfold flip_coin, try_except, bind at 1. rewrite H, lift_ret.
  reflexivity.
Qed.

(** X9.  A blank count is one flip: [flip_coin] answers it as it answers
    "1".  A count that is no number gets the error that quotes it as it
    was written, and a number outside 1..100 the range error; both leave
    the generator as it was. *)
Theorem flip_coin_default_and_refusals :
  forall count rnd,
    (py_strip count = [] -> flip_coin count rnd = flip_coin (u "1") rnd) /\
    (forall e, int_arg count 1 = Raise e ->
               flip_coin count rnd
               = (Ret (u "❌ Error: Invalid count value: " ++ count), rnd)) /\
    (forall n, int_arg count 1 = Ret n -> n < 1 \/ 100 < n ->
               flip_coin count rnd
               = (Ret (u "❌ Error: Count must be between 1 and 100"), rnd)).
Proof.
  intros count rnd. split; [| split].
  - intros H.
    rewrite (flip_coin_one count rnd), (flip_coin_one (u "1") rnd);
      [reflexivity | reflexivity |].
    unfold int_arg. now rewrite H.
  - intros e H. unfold flip_coin, try_except, bind.
    now rewrite H, lift_raise, (int_arg_raises _ _ _ H).
  - intros n H Hout. unfold flip_coin, try_except, bind.
    rewrite H, lift_ret.
    destruct (Z.ltb_spec n 1); [reflexivity |].
    destruct (Z.gtb_spec n 100); [reflexivity | lia].
Qed.

(** The theorem at the count "3.5". *)
Lemma flip_coin_default_and_refusals_witness :
  int_arg (u "3.5") 1 = Raise (invalid_literal (u "3.5")) /\
  flip_coin (u "3.5") (constant_tape 1)
  = (Ret (u "❌ Error: Invalid count value: 3.5"), constant_tape 1).
Proof.
  split; [reflexivity |].
  exact (proj1 (proj2 (flip_coin_default_and_refusals (u "3.5") (constant_tape 1)))
           _ eq_refl).
Defined.

(** ** Advantage: the type is checked after the rolls *)

(** X10.  [roll_with_advantage] rolls before it looks at the type: with
    sides that parse to a number in 2..1000 and a type that is none of
    "advantage", "adv", "disadvantage", "dis" and "disadv", it answers
    with the type error after two draws. *)
Theorem roll_with_advantage_unknown_type :
  forall sides advantage_type S rnd,
    int_arg sides 20 = Ret S -> 2 <= S <= 1000 ->
    ~ In (py_lower (py_strip advantage_type))
         [u "advantage"; u "adv"; u "disadvantage"; u "dis"; u "disadv"] ->
    roll_with_advantage sides advantage_type rnd
    = (Ret (u "❌ Error: Type must be 'advantage' or 'disadvantage'"),
       advance (advance rnd)).
Proof.
  intros sides advantage_type S rnd HS Hrange Hno.
  rewrite (roll_with_advantage_rolled sides advantage_type S rnd HS Hrange).
  cbv zeta. set (a := py_lower (py_strip advantage_type)) in *.
  destruct (str_eqb_spec a (u "advantage")) as [E | _];
    [exfalso; apply Hno; rewrite E; now left |].
  destruct (str_eqb_spec a (u "adv")) as [E | _];
    [exfalso; apply Hno; rewrite E; right; now left |].
  destruct (str_eqb_spec a (u "disadvantage")) as [E | _];
    [exfalso; apply Hno; rewrite E; right; right; now left |].
  destruct (str_eqb_spec a (u "dis")) as [E | _];
    [exfalso; apply Hno; rewrite E; right; right; right; now left |].
  destruct (str_eqb_spec a (u "disadv")) as [E | _];
    [exfalso; apply Hno; rewrite E; right; right; right; right; now left |].
  reflexivity.
Qed.

(** The theorem at a d20 and the type "lucky". *)
Lemma roll_with_advantage_unknown_type_witness :
  (int_arg (u "20") 20 = Ret 20 /\ 2 <= 20 <= 1000) /\
  roll_with_advantage (u "20") (u "lucky") (constant_tape 7)
  = (Ret (u "❌ Error: Type must be 'advantage' or 'disadvantage'"),
     advance (advance (constant_tape 7))).
Proof.
  split; [split; [reflexivity | lia] |].
  apply (roll_with_advantage_unknown_type (u "20") (u "lucky") 20);
    [reflexivity | lia |].
  intros [H | [H | [H | [H | [H | []]]]]]; discriminate H.
Defined.

(** X11.  Blank sides are 20 sides: [roll_with_advantage] answers them as
    it answers "20".  Sides that are no number get the error that quotes
    them as written, and a number outside 2..1000 the range error,
    whatever the type; both leave the generator as it was. *)
Theorem roll_with_advantage_sides :
  forall sides advantage_type rnd,
    (py_strip sides = [] ->
     roll_with_advantage sides advantage_type rnd
     = roll_with_advantage (u "20") advantage_type rnd) /\
    (forall e, int_arg sides 20 = Raise e ->
               roll_with_advantage sides advantage_type rnd
               = (Ret (u "❌ Error: Invalid sides value: " ++ sides), rnd)) /\
    (forall n, int_arg sides 20 = Ret n -> n < 2 \/ 1000 < n ->
               roll_with_advantage sides advantage_type rnd
               = (Ret (u "❌ Error: Sides must be between 2 and 1000"), rnd)).
Proof.
  intros sides advantage_type rnd. split; [| split].
  - intros H.
    rewrite (roll_with_advantage_rolled sides advantage_type 20 rnd),
            (roll_with_advantage_rolled (u "20") advantage_type 20 rnd);
      [reflexivity | reflexivity | lia | | lia].
    unfold int_arg. now rewrite H.
  - intros e H. unfold roll_with_advantage, try_except, bind.
    now rewrite H, lift_raise, (int_arg_raises _ _ _ H).
  - intros n H Hout. unfold roll_with_advantage, try_except, bind.
    rewrite H, lift_ret.
    destruct (Z.ltb_spec n 2); [reflexivity |].
    destruct (Z.gtb_spec n 1000); [reflexivity | lia].
Qed.

(** The theorem at one side. *)
Lemma roll_with_advantage_sides_witness :
  (int_arg (u "1") 20 = Ret 1 /\ (1 < 2 \/ 1000 < 1)) /\
  roll_with_advantage (u "1") (u "adv") (constant_tape 7)
  = (Ret (u "❌ Error: Sides must be between 2 and 1000"), constant_tape 7).
Proof.
  split; [split; [reflexivity | left; lia] |].
  apply (proj2 (proj2 (roll_with_advantage_sides (u "1") (u "adv")
                         (constant_tape 7))) 1);
    [reflexivity | left; lia].
Defined.

(** ** Initiative: unreadable numbers, defaults and draws *)

(** X12.  [roll_initiative] reads both numbers before it checks either
    range: when the count or the bonus is no number it answers "Invalid
    number value", also when the other one is out of range, and the
    generator is left as it was. *)
Theorem roll_initiative_unreadable :
  forall bonus count rnd,
    (exists e, int_arg count 1 = Raise e) \/
    (exists e, int_arg bonus 0 = Raise e) ->
    roll_initiative bonus count rnd
    = (Ret (u "❌ Error: Invalid number value"), rnd).
Proof.
  intros bonus count rnd H. unfold roll_initiative, try_except, bind.
  destruct (int_arg count 1) as [n | e] eqn:En.
  - destruct H as [[e H] | [e H]]; [discriminate H |].
    now rewrite lift_ret, H, lift_raise, (int_arg_raises _ _ _ H).
  - now rewrite lift_raise, (int_arg_raises _ _ _ En).
Qed.

(** The theorem at the count 0 with the bonus "x". *)
Lemma roll_initiative_unreadable_witness :
  int_arg (u "x") 0 = Raise (invalid_literal (u "x")) /\
  roll_initiative (u "x") (u "0") (constant_tape 7)
  = (Ret (u "❌ Error: Invalid number value"), constant_tape 7).
Proof.
  split; [reflexivity |].
  apply roll_initiative_unreadable. right. eexists. reflexivity.
Defined.

Lemma initiative_rows_draw bonus_val n :
  0 <= n ->
  draws (mapM (fun i =>
                 roll <- roll_single_die 20 ;;
                 let total := roll + bonus_val in
                 ret (i + 1, roll, total))
              (py_range n))
        (Z.to_nat n)
        (fun rows : list entry => py_len rows = n).
Proof.
  intros Hn.
  replace (Z.to_nat n) with (List.length (py_range n) * 1)%nat
    by (rewrite py_range_nat_length by lia; lia).
  eapply draws_weaken.
  - apply (draws_mapM _ 1 (fun _ (_ : entry) => True)).
    intros i _.
    apply (draws_bind _ _ 1 0 (fun v => 1 <= v <= 20));
      [apply draws_die; lia |].
    intros roll _. now apply draws_ret.
  - intros rows H. rewrite <- (py_range_length n Hn). unfold py_len.
    f_equal. symmetry. exact (Forall2_length H).
Qed.

(** X13.  A blank bonus is 0, whatever the count, and a blank count is
    1, whatever the bonus: [roll_initiative] answers a blank bonus as it
    answers "0" and a blank count as it answers "1".  With a count [N] in
    1..20 and a bonus in -10..20 it draws [N] values, one per participant;
    with a number out of its range it draws none. *)
Theorem roll_initiative_defaults_and_draws :
  forall bonus count rnd,
    (py_strip bonus = [] ->
     roll_initiative bonus count rnd = roll_initiative (u "0") count rnd) /\
    (py_strip count = [] ->
     roll_initiative bonus count rnd = roll_initiative bonus (u "1") rnd) /\
    (py_strip bonus = [] -> py_strip count = [] ->
     roll_initiative bonus count rnd = roll_initiative (u "0") (u "1") rnd) /\
    (forall B N,
        int_arg count 1 = Ret N -> int_arg bonus 0 = Ret B ->
        (1 <= N <= 20 -> -10 <= B <= 20 ->
         snd (roll_initiative bonus count rnd) = advance_by (Z.to_nat N) rnd) /\
        (N < 1 \/ 20 < N \/ B < -10 \/ 20 < B ->
         snd (roll_initiative bonus count rnd) = rnd)).
Proof.
  intros bonus count rnd.
  assert (Hbonus : forall c, py_strip bonus = [] ->
                   roll_initiative bonus c rnd = roll_initiative (u "0") c rnd).
  { intros c Hb. unfold roll_initiative.
    replace (int_arg bonus 0) with (@Ret Z 0)
      by (unfold int_arg; now rewrite Hb).
    reflexivity. }
  assert (Hcount : forall b, py_strip count = [] ->
                   roll_initiative b count rnd = roll_initiative b (u "1") rnd).
  { intros b Hc. unfold roll_initiative.
    replace (int_arg count 1) with (@Ret Z 1)
      by (unfold int_arg; now rewrite Hc).
    reflexivity. }
  split; [apply Hbonus |]. split; [apply Hcount |].
  split; [intros Hb Hc; now rewrite (Hbonus count Hb), (Hcount (u "0") Hc) |].
  intros B N HN HB. split.
  - intros HNin HBin.
    destruct (initiative_rows_draw B N ltac:(lia) rnd) as (rows & E & Hlen).
    rewrite (roll_initiative_parsed bonus count B N rnd HN HB).
    unfold try_except.
    destruct (Z.ltb_spec N 1); [lia |].
    destruct (Z.gtb_spec N 20); [lia |].
    destruct (Z.ltb_spec B (-10)); [lia |].
    destruct (Z.gtb_spec B 20); [lia |]. cbn [orb].
    rewrite (bind_ret _ _ _ _ _ E). cbv zeta.
    destruct (Z.eqb_spec N 1) as [-> | Hne]; [| reflexivity].
    destruct rows as [| [[c roll] total] [| e2 rows]];
      try (cbn in Hlen; lia).
    reflexivity.
  - intros Hout.
    rewrite (roll_initiative_parsed bonus count B N rnd HN HB).
    unfold try_except.
    destruct (Z.ltb_spec N 1); [reflexivity |].
    destruct (Z.gtb_spec N 20); [reflexivity |]. cbn [orb].
    destruct (Z.ltb_spec B (-10)); [reflexivity |].
    destruct (Z.gtb_spec B 20); [reflexivity | lia].
Qed.

(** The theorem at a blank bonus with the count "1" and the draw 4: the
    die shows 5 and the bonus reads +0. *)
Lemma roll_initiative_defaults_and_draws_witness :
  py_strip (u "  ") = [] /\
  roll_initiative (u "  ") (u "1") (tape_of [4])
  = (Ret (u "⚔️ Initiative: 5 +0 = **5**"), advance_by 1 (tape_of [4])).
Proof.
  split; [reflexivity |].
  rewrite (proj1 (roll_initiative_defaults_and_draws
                    (u "  ") (u "1") (tape_of [4])) eq_refl).
  vm_compute. reflexivity.
Defined.

(** ** The notation parser: shape, separators, case and blanks *)

(** X14.  The parser returns both values or none: its result is
    [(None, None)], or a count in 1..100 with sides in 2..1000. *)
Theorem parse_dice_notation_shape :
  forall notation,
    parse_dice_notation notation = (None, None) \/
    exists count sides,
      parse_dice_notation notation = (Some count, Some sides) /\
      1 <= count <= 100 /\ 2 <= sides <= 1000.
Proof.
  intros notation. unfold parse_dice_notation.
  destruct (negb (py_contains 100 (py_lower (py_strip notation))));
    [now left |].
  destruct (negb (py_len (py_split 100 (py_lower (py_strip notation))) =? 2));
    [now left |].
  destruct (getitem _ 0) as [p0 | e]; [| now left]. cbn [bindR].
  destruct (if truthy p0 then py_int p0 else Ret 1) as [count | e];
    [| now left]. cbn [bindR].
  destruct (getitem _ 1) as [p1 | e]; [| now left]. cbn [bindR].
  destruct (py_int p1) as [sides | e]; [| now left]. cbn [bindR].
  destruct (Z.ltb_spec count 1); [now left |].
  destruct (Z.gtb_spec count 100); [now left |].
  destruct (Z.ltb_spec sides 2); [now left |].
  destruct (Z.gtb_spec sides 1000); [now left |].
  right. exists count, sides. cbn. repeat split; lia.
Qed.

Lemma py_split_length sep s :
  List.length (py_split sep s) = S (count_occ Z.eq_dec s sep).
Proof.
  induction s as [| c s IH]; [reflexivity |].
  cbn [py_split count_occ].
  destruct (Z.eqb_spec c sep) as [-> | Hne].
  - destruct (Z.eq_dec sep sep); [| congruence]. cbn [List.length]. now rewrite IH.
  - destruct (Z.eq_dec c sep); [congruence |].
    destruct (py_split sep s) as [| p ps]; [discriminate IH |].
    cbn [List.length] in *. exact IH.
Qed.

(** X15.  A notation is refused unless it holds exactly one "d", upper or
    lower case: with none, or with two or more, the parser returns
    [(None, None)]. *)
Theorem parse_dice_notation_one_separator :
  forall notation,
    count_occ Z.eq_dec (py_lower (py_strip notation)) 100 <> 1%nat ->
    parse_dice_notation notation = (None, None).
Proof.
  intros notation H. unfold parse_dice_notation.
  destruct (negb (py_contains 100 (py_lower (py_strip notation))));
    [reflexivity |].
  unfold py_len. rewrite py_split_length.
  destruct (Z.eqb_spec (Z.of_nat (S (count_occ Z.eq_dec
                                       (py_lower (py_strip notation)) 100))) 2)
    as [E | _]; [lia | reflexivity].
Qed.

(** The theorem at "2D6d8". *)
Lemma parse_dice_notation_one_separator_witness :
  count_occ Z.eq_dec (py_lower (py_strip (u "2D6d8"))) 100 <> 1%nat /\
  parse_dice_notation (u "2D6d8") = (None, None).
Proof.
  assert (H : count_occ Z.eq_dec (py_lower (py_strip (u "2D6d8"))) 100 <> 1%nat)
    by (vm_compute; discriminate).
  split; [exact H |].
  exact (parse_dice_notation_one_separator (u "2D6d8") H).
Defined.

Lemma lower_char_space c : py_isspace (lower_char c) = py_isspace c.
Proof.
  unfold lower_char.
  destruct (Z.leb_spec 65 c); [destruct (Z.leb_spec c 90) |];
    cbn [andb]; [| reflexivity | reflexivity].
  unfold py_isspace. now settle_tests.
Qed.

Lemma py_lstrip_lower s : py_lstrip (py_lower s) = py_lower (py_lstrip s).
Proof.
  unfold py_lower. induction s as [| c s IH]; [reflexivity |].
  cbn [map py_lstrip]. rewrite lower_char_space.
  destruct (py_isspace c); [exact IH | reflexivity].
Qed.

Lemma py_strip_lower s : py_strip (py_lower s) = py_lower (py_strip s).
Proof.
  unfold py_strip, py_rstrip. rewrite py_lstrip_lower.
  unfold py_lower at 1. rewrite <- map_rev. fold (py_lower (rev (py_lstrip s))).
  rewrite py_lstrip_lower. unfold py_lower. now rewrite map_rev.
Qed.

Lemma py_lstrip_pad ws s :
  Forall (fun c => py_isspace c = true) ws -> py_lstrip (ws ++ s) = py_lstrip s.
Proof.
  induction 1 as [| c ws Hc _ IH]; [reflexivity |].
  cbn [app py_lstrip]. now rewrite Hc.
Qed.

Lemma py_rstrip_pad s ws :
  Forall (fun c => py_isspace c = true) ws -> py_rstrip (s ++ ws) = py_rstrip s.
Proof.
  intros H. unfold py_rstrip. rewrite rev_app_distr.
  now rewrite py_lstrip_pad by now apply Forall_rev.
Qed.

(** [strip()] does not see blanks added around a text. *)
Lemma py_strip_pad ws1 s ws2 :
  Forall (fun c => py_isspace c = true) ws1 ->
  Forall (fun c => py_isspace c = true) ws2 ->
  py_strip (ws1 ++ s ++ ws2) = py_strip s.
Proof.
  intros H1 H2. unfold py_strip. rewrite py_lstrip_pad by exact H1.
  destruct (py_lstrip s) as [| c r] eqn:E.
  - apply py_lstrip_nil in E.
    rewrite py_lstrip_blank by (apply Forall_app; now split). reflexivity.
  - assert (Happ : py_lstrip (s ++ ws2) = (c :: r) ++ ws2).
    { clear H1 H2. revert E. induction s as [| x s IH]; [discriminate |].
      cbn [app py_lstrip]. destruct (py_isspace x); [exact IH |].
      intros E. injection E as -> ->. reflexivity. }
    rewrite Happ. now apply py_rstrip_pad.
Qed.

(** X16.  The parser ignores the case of the notation and the blanks
    around it: two notations that are the same once lowered parse alike,
    with or without blanks before and after. *)
Theorem parse_dice_notation_ignores_case_and_blanks :
  forall a b ws1 ws2,
    Forall (fun c => py_isspace c = true) ws1 ->
    Forall (fun c => py_isspace c = true) ws2 ->
    py_lower a = py_lower b ->
    parse_dice_notation (ws1 ++ a ++ ws2) = parse_dice_notation b.
Proof.
  intros a b ws1 ws2 H1 H2 Hab.
  assert (E : py_lower (py_strip (ws1 ++ a ++ ws2)) = py_lower (py_strip b)).
  { rewrite py_strip_pad by assumption.
    now rewrite <- !py_strip_lower, Hab. }
  unfold parse_dice_notation. now rewrite E.
Qed.

(** The theorem at " 2D6" followed by a tab, and "2d6". *)
Lemma parse_dice_notation_ignores_case_and_blanks_witness :
  (Forall (fun c => py_isspace c = true) [32] /\
   Forall (fun c => py_isspace c = true) [9] /\
   py_lower (u "2D6") = py_lower (u "2d6")) /\
  parse_dice_notation ([32] ++ u "2D6" ++ [9]) = (Some 2, Some 6).
Proof.
  assert (H1 : Forall (fun c => py_isspace c = true) [32])
    by (repeat constructor).
  assert (H2 : Forall (fun c => py_isspace c = true) [9])
    by (repeat constructor).
  split; [split; [exact H1 | split; [exact H2 | reflexivity]] |].
  exact (parse_dice_notation_ignores_case_and_blanks
           (u "2D6") (u "2d6") [32] [9] H1 H2 eq_refl).
Defined.

(** ** Rolling dice: refusals, and any accepted notation *)

(** X17.  [roll_dice] tells a blank notation, which it asks to be
    specified, from any other notation the parser refuses, which it calls
    invalid; neither draws from the generator. *)
Theorem roll_dice_refusals :
  forall notation rnd,
    (py_strip notation = [] ->
     roll_dice notation rnd
     = (Ret (u "❌ Error: Please specify dice notation (e.g., 1d20, 2d6)"),
        rnd)) /\
    (py_strip notation <> [] ->
     parse_dice_notation notation = (None, None) ->
     roll_dice notation rnd
     = (Ret (u "❌ Error: Invalid dice notation. Use format like '1d20' or '2d6' (max 100 dice, 1000 sides)"),
        rnd)).
Proof.
  intros notation rnd. unfold roll_dice. split.
  - intros H. now rewrite H.
  - intros Hne Hp. destruct (py_strip notation); [congruence |].
    cbn [truthy negb]. unfold try_except. now rewrite Hp.
Qed.

(** The theorem at "2x6". *)
Lemma roll_dice_refusals_witness :
  (py_strip (u "2x6") <> [] /\ parse_dice_notation (u "2x6") = (None, None)) /\
  roll_dice (u "2x6") (constant_tape 5)
  = (Ret (u "❌ Error: Invalid dice notation. Use format like '1d20' or '2d6' (max 100 dice, 1000 sides)"),
     constant_tape 5).
Proof.
  assert (H : py_strip (u "2x6") <> []) by discriminate.
  split; [split; [exact H | reflexivity] |].
  exact (proj2 (roll_dice_refusals (u "2x6") (constant_tape 5)) H eq_refl).
Defined.

Lemma roll_many_draw sides count :
  1 <= sides -> 0 <= count ->
  draws (mapM (fun _ => roll_single_die sides) (py_range count))
        (Z.to_nat count)
        (fun rolls => py_len rolls = count /\
                      Forall (fun v => 1 <= v <= sides) rolls).
Proof.
  intros Hs Hc.
  replace (Z.to_nat count) with (List.length (py_range count) * 1)%nat
    by (rewrite py_range_nat_length by lia; lia).
  eapply draws_weaken.
  - apply (draws_mapM (fun _ : Z => roll_single_die sides) 1
             (fun _ v => 1 <= v <= sides)).
    intros _ _. now apply draws_die.
  - intros rolls H. apply Forall2_const_length in H. destruct H as [Hl Hf].
    split; [| exact Hf].
    rewrite <- (py_range_length count Hc). unfold py_len. now rewrite Hl.
Qed.

(** X18.  On any notation the parser accepts, as count [C] and sides [S],
    however it is written, [roll_dice] rolls [C] values of 1..S in [C]
    draws; the total lies between [C] and [C * S]; and the answer shows the
    notation as it was written, not as it was parsed. *)
Theorem roll_dice_any_accepted :
  forall notation C S rnd,
    parse_dice_notation notation = (Some C, Some S) ->
    exists rolls,
      py_len rolls = C /\
      Forall (fun v => 1 <= v <= S) rolls /\
      C <= py_sum rolls <= C * S /\
      snd (roll_dice notation rnd) = advance_by (Z.to_nat C) rnd /\
      (C = 1 ->
       run (roll_dice notation) rnd
       = Ret (u "🎲 Rolled " ++ notation ++ u ": **"
                ++ py_str (py_sum rolls) ++ u "**")) /\
      (C <> 1 ->
       run (roll_dice notation) rnd
       = Ret (u "🎲 Rolled " ++ notation ++ u ": ["
                ++ py_join (u ", ") (map py_str rolls) ++ u "] = **"
                ++ py_str (py_sum rolls) ++ u "**")).
Proof.
  intros notation C S rnd Hp.
  destruct (parse_dice_notation_accepts _ _ _ Hp) as (Ht & HC & HS).
  destruct (roll_many_draw S C ltac:(lia) ltac:(lia) rnd)
    as (rolls & E & Hlen & Hall).
  assert (Hrun : roll_dice notation rnd
                 = (Ret (format_roll_result rolls (py_sum rolls) notation),
                    advance_by (Z.to_nat C) rnd)).
  { unfold roll_dice. rewrite Ht, Hp. cbn [negb]. unfold try_except.
    now rewrite (bind_ret _ _ _ _ _ E). }
  exists rolls. split; [exact Hlen |]. split; [exact Hall |].
  split.
  { pose proof (py_sum_bounds 1 S rolls Hall) as Hb. rewrite Hlen in Hb. lia. }
  split; [now rewrite Hrun |].
  unfold run. rewrite Hrun. unfold format_roll_result. rewrite Hlen.
  split; intros H; destruct (Z.eqb_spec C 1); try contradiction; reflexivity.
Qed.

(** The theorem at " 3D4 ", written with blanks and a capital. *)
Lemma roll_dice_any_accepted_witness :
  parse_dice_notation (u " 3D4 ") = (Some 3, Some 4) /\
  exists rolls,
    3 <= py_sum rolls <= 3 * 4 /\
    run (roll_dice (u " 3D4 ")) (constant_tape 2)
    = Ret (u "🎲 Rolled  3D4 : [" ++ py_join (u ", ") (map py_str rolls)
             ++ u "] = **" ++ py_str (py_sum rolls) ++ u "**").
Proof.
  split; [reflexivity |].
  destruct (roll_dice_any_accepted (u " 3D4 ") 3 4 (constant_tape 2) eq_refl)
    as (rolls & _ & _ & Hsum & _ & _ & Hmany).
  exists rolls. split; [exact Hsum |].
  apply Hmany. discriminate.
Defined.

(** ** Random choice and the generator *)

(** X19.  [random_choice] draws once when it accepts the options, and
    selects the option at the position the draw gives, reduced modulo
    their number; when it refuses them it draws nothing. *)
Theorem random_choice_draws :
  forall options rnd,
    let choices :=
      map py_strip
          (filter (fun opt => truthy (py_strip opt)) (py_split 44 options)) in
    (2 <= py_len choices <= 50 ->
     random_choice options rnd
     = (Ret (u "🎯 Random Choice:" ++ nl
               ++ u "Options: " ++ py_join (u ", ") choices ++ nl
               ++ u "Selected: **"
               ++ nth (Z.to_nat (tape rnd (cursor rnd) mod py_len choices))
                      choices []
               ++ u "**"),
        advance rnd)) /\
    (py_len choices < 2 \/ 50 < py_len choices ->
     snd (random_choice options rnd) = rnd).
Proof.
  intros options rnd choices. split.
  - intros H. exact (random_choice_accepted options rnd H).
  - intros H. unfold random_choice.
    destruct (py_strip options) as [| c s] eqn:Es; [reflexivity |].
    cbn [truthy negb]. fold choices. unfold try_except.
    destruct (Z.ltb_spec (py_len choices) 2); [reflexivity |].
    destruct (Z.gtb_spec (py_len choices) 50); [reflexivity | lia].
Qed.

(** The theorem at "red, green, blue" and the draw 7. *)
Lemma random_choice_draws_witness :
  2 <= py_len [u "red"; u "green"; u "blue"] <= 50 /\
  random_choice (u "red, green, blue") (constant_tape 7)
  = (Ret (u "🎯 Random Choice:" ++ nl ++ u "Options: red, green, blue" ++ nl
            ++ u "Selected: **green**"),
     advance (constant_tape 7)).
Proof.
  assert (H : 2 <= py_len [u "red"; u "green"; u "blue"] <= 50)
    by (cbn; lia).
  split; [exact H |].
  exact (proj1 (random_choice_draws (u "red, green, blue") (constant_tape 7)) H).
Defined.
